(** * Chart-option transforms of the mo-echarts pie and bar plugins

    A shallow embedding of the TypeScript transform functions
    ([buildPieChart], [formatPieLabel], [transformSeriesData],
    the two [buildEchartOptions] and [legendOrientationBuilder]) and the
    properties their specification states about them.

    JavaScript values are embedded as data: scalars of a query row, arrays,
    objects as association lists in property-enumeration order, and the
    callbacks the transforms put into the chart options.  The functions of
    [@superset-ui/core] that the transforms call ([formatNumber] and the
    categorical colour scale) are not part of the plugins; they are taken
    as an interface ([Externals]). *)

From Stdlib Require Import ZArith String List Bool Lia DecimalString.
From stdpp Require Import base gmap strings list.

Open Scope string_scope.
Open Scope list_scope.

(** ** JavaScript values *)

(** Numbers.  The transforms never compute with a number: they carry it
    from a row to the chart options, write integer literals, and convert it
    to a string with [n + "%"].  The number type is therefore a parameter
    with these two operations. *)
Class JsNumber (num : Type) := {
  number_of_Z : Z -> num;            (* an integer literal *)
  number_to_string : num -> string   (* Number::toString *)
}.

(** Integer-valued numbers print in decimal, with a leading minus sign. *)
#[export] Instance Z_JsNumber : JsNumber Z := {
  number_of_Z z := z;
  number_to_string z := NilZero.string_of_int (Z.to_int z)
}.

(** [DataRecordValue] of a query row, and [undefined] for a property that a
    row does not have.  Rows are decoded from JSON, so no [Date]. *)
Inductive Scalar (num : Type) : Type :=
| SUndefined
| SNull
| SBool (b : bool)
| SNum (n : num)
| SStr (s : string).

Arguments SUndefined {num}.
Arguments SNull {num}.
Arguments SBool {num} b.
Arguments SNum {num} n.
Arguments SStr {num} s.

(** A row ([TimeseriesDataRecord]): its own properties in the order in which
    [Object.keys] enumerates them. *)
Definition Row (num : Type) : Type := list (string * Scalar num).

(** The parameter object ECharts hands to a bar label formatter: the series
    name, the category name and the dataset row of the bar. *)
Record BarLabelParams (num : Type) : Type := {
  bar_seriesName : string;
  bar_name : Scalar num;
  bar_value : Row num
}.

Arguments bar_seriesName {num} _.
Arguments bar_name {num} _.
Arguments bar_value {num} _.

(** The parameter object ECharts hands to a pie label formatter. *)
Record PieLabelParams (num : Type) : Type := {
  pie_name : Scalar num;
  pie_value : Scalar num;
  pie_percent : Scalar num
}.

Arguments pie_name {num} _.
Arguments pie_value {num} _.
Arguments pie_percent {num} _.

(** The arrow functions that the transforms store in the chart options. *)
Inductive Callback (num : Type) : Type :=
| BarLabelCallback (f : BarLabelParams num -> string)
| PieLabelCallback (f : PieLabelParams num -> Scalar num)
| ValueCallback (f : Scalar num -> string).

Arguments BarLabelCallback {num} f.
Arguments PieLabelCallback {num} f.
Arguments ValueCallback {num} f.

(** Values of the chart options.  [VRef] is a reference to an object of
    the store and occurs in the store embedding only. *)
#[local] Set Warnings "-register-all".
Inductive JsValue (num : Type) : Type :=
| VData (s : Scalar num)
| VArr (xs : list (JsValue num))
| VObj (fields : list (string * JsValue num))
| VFun (c : Callback num)
| VRef (l : nat).

#[local] Set Warnings "+register-all".
Arguments VData {num} s.
Arguments VArr {num} xs.
Arguments VObj {num} fields.
Arguments VFun {num} c.
Arguments VRef {num} l.

(** An object: its properties in insertion order. *)
Definition Obj (num : Type) : Type := list (string * JsValue num).

Section Values.
Context {num : Type} {NumOps : JsNumber num}.

Definition VStr (s : string) : JsValue num := VData (SStr s).
Definition VBool (b : bool) : JsValue num := VData (SBool b).
Definition VNum (n : num) : JsValue num := VData (SNum n).
Definition VInt (z : Z) : JsValue num := VData (SNum (number_of_Z z)).
Definition VNull : JsValue num := VData SNull.
Definition VUndefined : JsValue num := VData SUndefined.

(** ToString on the scalars; used by [+] with a string operand and by
    template literals. *)
Definition to_string (v : Scalar num) : string :=
  match v with
  | SUndefined => "undefined"
  | SNull => "null"
  | SBool true => "true"
  | SBool false => "false"
  | SNum n => number_to_string n
  | SStr s => s
  end.

(** [o[k] = v]: an existing property keeps its place, a new one goes last. *)
Fixpoint obj_set (k : string) (v : JsValue num) (o : Obj num) : Obj num :=
  match o with
  | [] => [(k, v)]
  | (k', v') :: o' =>
      if String.eqb k' k then (k', v) :: o' else (k', v') :: obj_set k v o'
  end.

(** [o[k]] on an object; [None] stands for [undefined]. *)
Fixpoint obj_get (k : string) (o : Obj num) : option (JsValue num) :=
  match o with
  | [] => None
  | (k', v) :: o' => if String.eqb k' k then Some v else obj_get k o'
  end.

(** [v.k] *)
Definition prop (v : JsValue num) (k : string) : JsValue num :=
  match v with
  | VObj o => default VUndefined (obj_get k o)
  | _ => VUndefined
  end.

(** The own enumerable properties that [...v] copies; the transforms only
    spread objects. *)
Definition own_props (v : JsValue num) : Obj num :=
  match v with
  | VObj o => o
  | _ => []
  end.

(** A member of an object literal: [k: v] or [...v]. *)
Inductive Member : Type :=
| Field (k : string) (v : JsValue num)
| Spread (v : JsValue num).

Definition add_member (o : Obj num) (m : Member) : Obj num :=
  match m with
  | Field k v => obj_set k v o
  | Spread v => fold_left (fun acc kv => obj_set kv.1 kv.2 acc) (own_props v) o
  end.

(** The object literal [{ m1, m2, ... }], evaluated left to right. *)
Definition object (ms : list Member) : JsValue num :=
  VObj (fold_left add_member ms []).

(** [d[k]] on a row. *)
Fixpoint row_get (d : Row num) (k : string) : Scalar num :=
  match d with
  | [] => SUndefined
  | (k', v) :: d' => if String.eqb k' k then v else row_get d' k
  end.

Definition Object_keys (v : Row num) : list string := map fst v.

(** A row as a value of the chart options. *)
Definition row_value (d : Row num) : JsValue num :=
  VObj (map (fun kv => (kv.1, VData kv.2)) d).

(** The rows array [data] as a value of the chart options. *)
Definition rows_value (data : list (Row num)) : JsValue num :=
  VArr (map row_value data).

End Values.

Notation "k ::= v" := (Field k v) (at level 60, no associativity).

(** ** [Set] and [forEach] *)

(** A [Set] of strings: its elements in insertion order, without
    repetition. *)
Definition JsSet : Type := list string.

Definition new_Set : JsSet := [].

Definition Set_has (s : JsSet) (k : string) : bool := existsb (String.eqb k) s.

(** [s.add(k)] *)
Definition Set_add (s : JsSet) (k : string) : JsSet :=
  if Set_has s k then s else (s ++ [k]).

(** [Array.from(s)] *)
Definition Array_from (s : JsSet) : list string := s.

(** [xs.forEach(x => body)] where the body updates a local object whose
    state is [S]. *)
Definition forEach {A S : Type} (xs : list A) (body : S -> A -> S) (init : S) : S :=
  fold_left body xs init.

(** ** The interface of [@superset-ui/core] *)

(** [formatNumber] and [CategoricalColorNamespace.getScale] belong to the
    host library, not to the plugins.  They are taken as functions: what
    they return depends on their arguments only. *)

(** A categorical colour scale: callable on a name, with a [colors] list. *)
Record ColorScale : Type := {
  scale_color : string -> string;
  scale_colors : list string
}.

Class Externals (num : Type) := {
  formatNumber : string -> Scalar num -> string;
  getScale : string -> ColorScale   (* CategoricalColorNamespace.getScale *)
}.

(** ** The pie plugin: [mo-echarts-pie/src/plugin] *)

Module Pie.
Section Transform.
Context {num : Type} {NumOps : JsNumber num} {host : Externals num}.

(** The object that [transformSeriesData] pushes: [{ name: k, value: d[k] }]. *)
Definition nameValue (k : string) (v : Scalar num) : JsValue num :=
  object [ "name" ::= VStr k; "value" ::= VData v ].

(** The first block of [transformSeriesData]: the set [keysSets] after
    [keys.forEach((el) => { el.forEach((k) => keysSets.add(k)); })]. *)
Definition keysSets (data : list (Row num)) : JsSet :=
  let keys := map Object_keys data in
  forEach keys (fun s el => forEach el (fun s k => Set_add s k) s) new_Set.

Definition transformSeriesData (data : list (Row num)) : list (JsValue num) :=
  let keysSets := keysSets data in
  let nameValuesChartData : list (JsValue num) := [] in
  forEach data
    (fun acc d =>
       forEach keysSets
         (fun acc k => (acc ++ [nameValue k (row_get d k)])) acc)
    nameValuesChartData.

Definition formatPieLabel (params : PieLabelParams num)
    (numberFormat labelType : string) : Scalar num :=
  let name := pie_name params in
  let value := pie_value params in
  let percent := pie_percent params in
  let formattedValue := formatNumber numberFormat value in
  let formattedPercent := to_string percent +:+ "%" in
  if String.eqb labelType "key" then name
  else if String.eqb labelType "value" then SStr formattedValue
  else if String.eqb labelType "percent" then SStr formattedPercent
  else if String.eqb labelType "key_value" then
    SStr (to_string name +:+ ": " +:+ formattedValue)
  else if String.eqb labelType "key_value_percent" then
    SStr (to_string name +:+ ": " +:+ formattedValue
          +:+ " (" +:+ formattedPercent +:+ ")")
  else if String.eqb labelType "key_percent" then
    SStr (to_string name +:+ ": " +:+ formattedPercent)
  else name.

Definition buildPieChart (data : list (Row num))
    (chartTitle chartSubTitle : string) (showLegend showTitle : bool)
    (outerRadius innerRadius : num) (donut : bool)
    (numberFormat colorScheme : string)
    (showLabels labelsOutside labelLine : bool) (labelPosition : string)
    (showTooltip highlight : bool)
    (labelType legendVertical legendHorizontal legendOrientation : string)
    (marginTop marginBottom marginRight marginLeft : string) : JsValue num :=
  let nameValuesChartData := transformSeriesData data in
  let formatter :=
    VFun (PieLabelCallback
            (fun params => formatPieLabel params numberFormat labelType)) in
  let colorScale := getScale colorScheme in
  let chartOptions :=
    object [
      "title" ::= object [
        "show" ::= VBool showTitle;
        "text" ::= VStr chartTitle;
        "subtext" ::= VStr chartSubTitle;
        "left" ::= VStr "center" ];
      "color" ::= VArr (map VStr (scale_colors colorScale));
      "tooltip" ::= object [
        "show" ::= VBool showTooltip;
        "trigger" ::= VStr "item";
        "formatter" ::= formatter;
        "valueFormatter" ::=
          VFun (ValueCallback (fun value => formatNumber numberFormat value)) ];
      "legend" ::= object [
        "show" ::= VBool showLegend;
        "orient" ::= VStr legendOrientation;
        "left" ::= VStr legendHorizontal;
        "top" ::= VStr legendVertical ];
      "series" ::= VArr [
        object [
          "type" ::= VStr "pie";
          "radius" ::=
            (if donut
             then VArr [ VStr (number_to_string innerRadius +:+ "%");
                         VStr (number_to_string outerRadius +:+ "%") ]
             else VStr (number_to_string outerRadius +:+ "%"));
          "data" ::= VArr nameValuesChartData;
          "emphasis" ::= object [
            "label" ::= object [
              "show" ::= VBool highlight;
              "fontSize" ::= VStr "18";
              "fontWeight" ::= VStr "bold";
              "formatter" ::= formatter ];
            "itemStyle" ::= object [
              "shadowBlur" ::= VInt 10;
              "shadowOffsetX" ::= VInt 0;
              "shadowColor" ::= VStr "rgba(0, 0, 0, 0.5)" ] ];
          "labelLine" ::=
            (if labelsOutside && labelLine
             then object [ "show" ::= VBool true ]
             else object [ "show" ::= VBool false ]);
          "label" ::=
            (if labelsOutside
             then object [
                    "show" ::= VBool showLabels;
                    "formatter" ::= formatter;
                    "position" ::= VStr labelPosition;
                    "alignTo" ::= VStr "none";
                    "bleedMargin" ::= VInt 5 ]
             else object [
                    "show" ::= VBool showLabels;
                    "position" ::= VStr labelPosition;
                    "formatter" ::= formatter ]);
          "top" ::= VStr marginTop;
          "bottom" ::= VStr marginBottom;
          "right" ::= VStr marginRight;
          "left" ::= VStr marginLeft ] ] ]
  in
  chartOptions.

End Transform.
End Pie.

(** ** The bar plugin: [mo-echarts-bar/src/plugin/transformProps.ts] *)

Module Bar.
Section Transform.
Context {num : Type} {NumOps : JsNumber num} {host : Externals num}.

(** The arrow function [labelFormatter]; [numberFormat] and
    [seriesLabelsFormat] are the variables it captures. *)
Definition labelFormatter (numberFormat seriesLabelsFormat : string)
    (params : BarLabelParams num) : string :=
  let seriesName := bar_seriesName params in
  let categoryName := bar_name params in
  let value := row_get (bar_value params) seriesName in
  let formattedValue := formatNumber numberFormat value in
  if String.eqb seriesLabelsFormat "seriesNameCategoryValue" then
    seriesName +:+ " - " +:+ to_string categoryName +:+ " : " +:+ formattedValue
  else if String.eqb seriesLabelsFormat "seriesNameValue" then
    seriesName +:+ " : " +:+ formattedValue
  else if String.eqb seriesLabelsFormat "categoryValue" then
    to_string categoryName +:+ " : " +:+ formattedValue
  else formattedValue.

(** The block "Get Series Dimensions" of [buildEchartOptions]: the keys of
    all rows, each once, in order of first appearance. *)
Definition dimensions (data : list (Row num)) : list string :=
  let keys := map Object_keys data in
  let keysSets :=
    forEach keys (fun s el => forEach el (fun s k => Set_add s k) s) new_Set in
  Array_from keysSets.

Definition buildEchartOptions (data : list (Row num)) (cols : string)
    (invertBars showLegend seriesLabelsShow : bool)
    (seriesLabelsPosition : string) (seriesCategoriesShow : bool)
    (numberFormat seriesLabelsFormat colorScheme : string)
    (showTooltip : bool) : JsValue num :=
  let colorScale := getScale colorScheme in
  let labelFormatter :=
    VFun (BarLabelCallback (labelFormatter numberFormat seriesLabelsFormat)) in
  let dimensions := dimensions data in
  let yAxisAsCategories :=
    if invertBars
    then object [ "type" ::= VStr "category"; "show" ::= VBool seriesCategoriesShow ]
    else object [] in
  let xAxisAsCategories :=
    if negb invertBars
    then object [ "type" ::= VStr "category"; "show" ::= VBool seriesCategoriesShow ]
    else object [] in
  let axisEncoding :=
    if invertBars
    then object [ "y" ::= VStr cols; "x" ::= VNull ]
    else object [ "x" ::= VStr cols; "y" ::= VNull ] in
  let singleSeriesConfig :=
    object [
      "name" ::= object [];
      "type" ::= VStr "bar";
      "encode" ::= object [ Spread axisEncoding ];
      "label" ::= object [
        "show" ::= VBool seriesLabelsShow;
        "position" ::= VStr seriesLabelsPosition;
        "formatter" ::= labelFormatter ];
      "itemStyle" ::= object [ "color" ::= VStr "auto" ] ] in
  let allSeriesConfigs : list (JsValue num) := [] in
  let allSeriesConfigs :=
    forEach dimensions
      (fun allSeriesConfigs dim =>
         if negb (String.eqb dim cols) then
           let setValueAxisEncoding :=
             if invertBars
             then object [ Spread (prop singleSeriesConfig "encode"); "x" ::= VStr dim ]
             else object [ Spread (prop singleSeriesConfig "encode"); "y" ::= VStr dim ] in
           (allSeriesConfigs ++ [
              object [
                Spread singleSeriesConfig;
                "name" ::= VStr dim;
                "itemStyle" ::= object [ "color" ::= VStr (scale_color colorScale dim) ];
                "encode" ::= object [ Spread setValueAxisEncoding ] ] ])
         else allSeriesConfigs)
      allSeriesConfigs in
  let chartOptions :=
    object [
      "dataset" ::= object [
        "dimensions" ::= VArr (map VStr dimensions);
        "source" ::= rows_value data ];
      "legend" ::= object [ "show" ::= VBool showLegend ];
      "tooltip" ::= object [ "show" ::= VBool showTooltip ];
      "yAxis" ::= object [ Spread yAxisAsCategories ];
      "xAxis" ::= object [ Spread xAxisAsCategories ];
      "series" ::= VArr allSeriesConfigs ] in
  chartOptions.

End Transform.
End Bar.

(** ** The bar transform with stacking, legend orientation and margins
    ([src/unnamed/part_002]) *)

Module BarStacked.
Section Transform.
Context {num : Type} {NumOps : JsNumber num} {host : Externals num}.

(** The arrow function [labelFormatter]; [numberFormat] and
    [seriesLabelsFormat] are the variables it captures. *)
Definition labelFormatter (numberFormat seriesLabelsFormat : string)
    (params : BarLabelParams num) : string :=
  let seriesName := bar_seriesName params in
  let categoryName := bar_name params in
  let value := row_get (bar_value params) seriesName in
  let formattedValue := formatNumber numberFormat value in
  if String.eqb seriesLabelsFormat "seriesNameCategoryValue" then
    seriesName +:+ " - " +:+ to_string categoryName +:+ " : " +:+ formattedValue
  else if String.eqb seriesLabelsFormat "seriesNameValue" then
    seriesName +:+ " : " +:+ formattedValue
  else if String.eqb seriesLabelsFormat "categoryValue" then
    to_string categoryName +:+ " : " +:+ formattedValue
  else formattedValue.

(** The block "Get Series Dimensions" of [buildEchartOptions]. *)
Definition dimensions (data : list (Row num)) : list string :=
  let keys := map Object_keys data in
  let keysSets :=
    forEach keys (fun s el => forEach el (fun s k => Set_add s k) s) new_Set in
  Array_from keysSets.

Definition legendOrientationBuilder (legendOrientation : string) : JsValue num :=
  let legend :=
    object [
      "orient" ::=
        (if existsb (String.eqb legendOrientation) ["top"; "bottom"]
         then VStr "horizontal"
         else VStr "vertical") ] in
  let options : JsValue num := object [] in
  let options :=
    if String.eqb legendOrientation "left" then
      object [ "left" ::= VInt 0 ]
    else if String.eqb legendOrientation "bottom" then
      object [ "bottom" ::= VInt 0 ]
    else
      (* case 'top': case 'right': default: *)
      object [ "right" ::= VInt 0; "top" ::= VInt 0 ] in
  object [ Spread legend; Spread options ].

Definition buildEchartOptions (data : list (Row num)) (cols : string)
    (invertBars showLegend seriesLabelsShow : bool)
    (seriesLabelsPosition : string) (seriesCategoriesShow : bool)
    (numberFormat seriesLabelsFormat colorScheme : string)
    (showTooltip stackSeries : bool)
    (marginTop marginBottom marginRight marginLeft legendOrientation : string)
    : JsValue num :=
  let colorScale := getScale colorScheme in
  let labelFormatter :=
    VFun (BarLabelCallback (labelFormatter numberFormat seriesLabelsFormat)) in
  let dimensions := dimensions data in
  let yAxisAsCategories :=
    if invertBars
    then object [ "type" ::= VStr "category"; "show" ::= VBool seriesCategoriesShow ]
    else object [] in
  let xAxisAsCategories :=
    if negb invertBars
    then object [ "type" ::= VStr "category"; "show" ::= VBool seriesCategoriesShow ]
    else object [] in
  let axisEncoding :=
    if invertBars
    then object [ "y" ::= VStr cols; "x" ::= VNull ]
    else object [ "x" ::= VStr cols; "y" ::= VNull ] in
  let stackSettings :=
    if stackSeries then object [ "stack" ::= VStr "totals" ] else object [] in
  let singleSeriesConfig :=
    object [
      "name" ::= object [];
      "type" ::= VStr "bar";
      "encode" ::= object [ Spread axisEncoding ];
      "label" ::= object [
        "show" ::= VBool seriesLabelsShow;
        "position" ::= VStr seriesLabelsPosition;
        "formatter" ::= labelFormatter ];
      "itemStyle" ::= object [ "color" ::= VStr "auto" ];
      Spread stackSettings ] in
  let allSeriesConfigs : list (JsValue num) := [] in
  let allSeriesConfigs :=
    forEach dimensions
      (fun allSeriesConfigs dim =>
         if negb (String.eqb dim cols) then
           let setValueAxisEncoding :=
             if invertBars
             then object [ Spread (prop singleSeriesConfig "encode"); "x" ::= VStr dim ]
             else object [ Spread (prop singleSeriesConfig "encode"); "y" ::= VStr dim ] in
           (allSeriesConfigs ++ [
              object [
                Spread singleSeriesConfig;
                "name" ::= VStr dim;
                "itemStyle" ::= object [ "color" ::= VStr (scale_color colorScale dim) ];
                "encode" ::= object [ Spread setValueAxisEncoding ] ] ])
         else allSeriesConfigs)
      allSeriesConfigs in
  let legendOptions := legendOrientationBuilder legendOrientation in
  let chartOptions :=
    object [
      "dataset" ::= object [
        "dimensions" ::= VArr (map VStr dimensions);
        "source" ::= rows_value data ];
      "legend" ::= object [ "show" ::= VBool showLegend; Spread legendOptions ];
      "tooltip" ::= object [
        "show" ::= VBool showTooltip;
        "valueFormatter" ::=
          VFun (ValueCallback (fun value => formatNumber numberFormat value)) ];
      "yAxis" ::= object [ Spread yAxisAsCategories ];
      "xAxis" ::= object [ Spread xAxisAsCategories ];
      "series" ::= VArr allSeriesConfigs;
      "grid" ::= object [
        "top" ::= VStr marginTop;
        "bottom" ::= VStr marginBottom;
        "right" ::= VStr marginRight;
        "left" ::= VStr marginLeft ] ] in
  chartOptions.

End Transform.
End BarStacked.

(** ** Reading chart options *)

Section Accessors.
Context {num : Type} {NumOps : JsNumber num}.

(** The elements of an array value. *)
Definition array_elems (v : JsValue num) : list (JsValue num) :=
  match v with
  | VArr xs => xs
  | _ => []
  end.

(** [chartOptions.series] *)
Definition series (chartOptions : JsValue num) : list (JsValue num) :=
  array_elems (prop chartOptions "series").

(** The keys observed across all rows, as a finite set. *)
Definition observed_keys (data : list (Row num)) : gset string :=
  ⋃ (map (fun d => list_to_set (Object_keys d)) data).

End Accessors.

(** A host for running the transforms on examples: [formatNumber] prints
    the value whatever the format is, and colours are named after the
    scheme and the series. *)
Definition example_host : Externals Z := {|
  formatNumber := fun _ v => to_string v;
  getScale := fun scheme =>
    {| scale_color := fun name => scheme +:+ "/" +:+ name;
       scale_colors := [scheme +:+ "/0"; scheme +:+ "/1"] |}
|}.

(** The rows of the end-to-end scenario:
    [[{region: "A", sales: 10}, {region: "B", sales: 20}]]. *)
Definition region_sales_rows : list (Row Z) :=
  [ [("region", SStr "A"); ("sales", SNum 10%Z)];
    [("region", SStr "B"); ("sales", SNum 20%Z)] ].

(** ** The store

    The transforms create and update objects ([new Set()], [add], [[]],
    [push]) and keep references to the rows they are given.  In this second
    embedding the objects that are updated after their creation, and the
    rows of the caller, live in a store, and the transforms are
    computations on it.  Object literals, which the transforms never update
    once built, stay values; arrays that [map] and [Array.from] return are
    lists. *)

Module Store.
Section Model.
Context {num : Type} {NumOps : JsNumber num}.

(** An object of the store. *)
Inductive Cell : Type :=
| CRow (d : Row num)                (* a row of the query result *)
| CArray (xs : list (JsValue num))  (* an array *)
| CSet (s : JsSet).                 (* a [Set] *)

(** The store: the object at reference [l] is the [l]-th cell. *)
Definition Heap : Type := list Cell.

(** A computation: from a store to a result and the store it leaves, or
    [None] when it is applied to a reference of the wrong kind. *)
Definition M (A : Type) : Type := Heap -> option (A * Heap).

#[export] Instance M_ret : MRet M := fun A x h => Some (x, h).

#[export] Instance M_bind : MBind M := fun A B f m h =>
  match m h with
  | Some (x, h') => f x h'
  | None => None
  end.

Definition throw {A : Type} : M A := fun _ => None.

(** A new object. *)
Definition alloc (c : Cell) : M (JsValue num) :=
  fun h => Some (VRef (length h), (h ++ [c])).

Definition deref (v : JsValue num) : M Cell :=
  fun h =>
    match v with
    | VRef l => match h !! l with Some c => Some (c, h) | None => None end
    | _ => None
    end.

(** Overwrites the object at an existing reference. *)
Definition assign (v : JsValue num) (c : Cell) : M unit :=
  fun h =>
    match v with
    | VRef l => if decide (l < length h) then Some (tt, <[l := c]> h) else None
    | _ => None
    end.

(** [xs.forEach(x => body)] on a list. *)
Fixpoint forEachM {A : Type} (xs : list A) (body : A -> M unit) : M unit :=
  match xs with
  | [] => mret tt
  | x :: xs' => body x ;; forEachM xs' body
  end.

(** The elements of the array at [a]. *)
Definition Array_elems (a : JsValue num) : M (list (JsValue num)) :=
  c ← deref a;
  match c with
  | CArray xs => mret xs
  | _ => throw
  end.

(** [a.map(f)]: the results, as a list. *)
Definition Array_mapM {B : Type} (a : JsValue num) (f : JsValue num -> M B)
    : M (list B) :=
  xs ← Array_elems a; mapM f xs.

(** [a.forEach(x => body)] *)
Definition Array_forEachM (a : JsValue num) (body : JsValue num -> M unit)
    : M unit :=
  xs ← Array_elems a; forEachM xs body.

(** [[]] *)
Definition new_ArrayM : M (JsValue num) := alloc (CArray []).

(** [a.push(x)] *)
Definition Array_pushM (a : JsValue num) (x : JsValue num) : M unit :=
  c ← deref a;
  match c with
  | CArray xs => assign a (CArray (xs ++ [x]))
  | _ => throw
  end.

(** [Object.keys(v)] on a row. *)
Definition Object_keysM (v : JsValue num) : M (list string) :=
  c ← deref v;
  match c with
  | CRow d => mret (Object_keys d)
  | _ => throw
  end.

(** [d[k]] on a row. *)
Definition getM (d : JsValue num) (k : string) : M (Scalar num) :=
  c ← deref d;
  match c with
  | CRow r => mret (row_get r k)
  | _ => throw
  end.

(** [new Set()] *)
Definition new_SetM : M (JsValue num) := alloc (CSet []).

(** [s.add(k)] *)
Definition Set_addM (s : JsValue num) (k : string) : M unit :=
  c ← deref s;
  match c with
  | CSet ks => assign s (CSet (Set_add ks k))
  | _ => throw
  end.

(** The elements of the set at [s], in insertion order. *)
Definition Set_elems (s : JsValue num) : M (list string) :=
  c ← deref s;
  match c with
  | CSet ks => mret ks
  | _ => throw
  end.

(** [s.forEach(k => body)] *)
Definition Set_forEachM (s : JsValue num) (body : string -> M unit) : M unit :=
  ks ← Set_elems s; forEachM ks body.

(** [Array.from(s)]: the elements, as a list. *)
Definition Array_fromM (s : JsValue num) : M (list string) := Set_elems s.

(** The row that a reference denotes. *)
Definition read_row (h : Heap) (r : JsValue num) : option (Row num) :=
  match r with
  | VRef l => match h !! l with Some (CRow d) => Some d | _ => None end
  | _ => None
  end.

(** The rows that [data] denotes: [data] refers to an array of references
    to rows. *)
Definition read_rows (h : Heap) (data : JsValue num) : option (list (Row num)) :=
  match data with
  | VRef a =>
      match h !! a with
      | Some (CArray refs) => mapM (read_row h) refs
      | _ => None
      end
  | _ => None
  end.

(** The value that [v] denotes in a store: references to rows and arrays
    are followed, at most [fuel] deep.  The rows array of the caller needs
    depth 2, the arrays of the transforms depth 1. *)
Fixpoint reify (fuel : nat) (h : Heap) : JsValue num -> JsValue num :=
  fix go (v : JsValue num) : JsValue num :=
    match v with
    | VRef l =>
        match fuel with
        | 0 => VRef l
        | S fuel' =>
            match h !! l with
            | Some (CRow d) => row_value d
            | Some (CArray xs) => VArr (map (reify fuel' h) xs)
            | Some (CSet _) | None => VRef l
            end
        end
    | VArr xs => VArr (map go xs)
    | VObj fields => VObj (map (fun kv => (kv.1, go kv.2)) fields)
    | VData _ | VFun _ => v
    end.

(** A transform on the store computes [model] when, applied to a reference
    [data] that denotes [rows], it returns chart options that denote
    [model rows], and leaves the store as it was but for new objects at its
    end. *)
Definition computes (run : JsValue num -> M (JsValue num))
    (model : list (Row num) -> JsValue num) : Prop :=
  forall (h : Heap) (data : JsValue num) (rows : list (Row num)),
    read_rows h data = Some rows ->
    exists (chartOptions : JsValue num) (t : Heap),
      run data h = Some (chartOptions, h ++ t)
      /\ forall t' : Heap, reify 2 (h ++ t ++ t') chartOptions = model rows.

(** Two invocations on the same rows return chart options that denote the
    same value. *)
Definition deterministic (run : JsValue num -> M (JsValue num)) : Prop :=
  forall (h1 h2 : Heap) (data1 data2 : JsValue num) (rows : list (Row num)),
    read_rows h1 data1 = Some rows ->
    read_rows h2 data2 = Some rows ->
    exists (chartOptions1 chartOptions2 : JsValue num) (h1' h2' : Heap),
      run data1 h1 = Some (chartOptions1, h1')
      /\ run data2 h2 = Some (chartOptions2, h2')
      /\ reify 2 h1' chartOptions1 = reify 2 h2' chartOptions2.

(** An invocation leaves every object of the store as it was, the rows among
    them. *)
Definition preserves_store (run : JsValue num -> M (JsValue num)) : Prop :=
  forall (h : Heap) (data : JsValue num) (rows : list (Row num)),
    read_rows h data = Some rows ->
    exists (chartOptions : JsValue num) (h' : Heap),
      run data h = Some (chartOptions, h')
      /\ (forall (l : nat) (c : Cell), h !! l = Some c -> h' !! l = Some c)
      /\ read_rows h' data = Some rows.

(** An invocation in the store that an earlier one has left returns chart
    options that denote what those of the earlier one denote. *)
Definition repeatable (run : JsValue num -> M (JsValue num)) : Prop :=
  forall (h : Heap) (data : JsValue num) (rows : list (Row num)),
    read_rows h data = Some rows ->
    exists (chartOptions1 chartOptions2 : JsValue num) (h1 h2 : Heap),
      run data h = Some (chartOptions1, h1)
      /\ run data h1 = Some (chartOptions2, h2)
      /\ reify 2 h1 chartOptions1 = reify 2 h2 chartOptions2
      /\ reify 2 h2 chartOptions1 = reify 2 h2 chartOptions2.

End Model.
End Store.

(** The pie transform on the store. *)
Module PieStore.
Import Store.
Section Transform.
Context {num : Type} {NumOps : JsNumber num} {host : Externals num}.

Definition transformSeriesData (data : JsValue num) : M (JsValue num) :=
  keys ← Array_mapM data (fun v => Object_keysM v);
  keysSets ← new_SetM;
  forEachM keys (fun el => forEachM el (fun k => Set_addM keysSets k));;
  nameValuesChartData ← new_ArrayM;
  Array_forEachM data
    (fun d =>
       Set_forEachM keysSets
         (fun k =>
            v ← getM d k;
            Array_pushM nameValuesChartData
              (object [ "name" ::= VStr k; "value" ::= VData v ])));;
  mret nameValuesChartData.

Definition buildPieChart (data : JsValue num)
    (chartTitle chartSubTitle : string) (showLegend showTitle : bool)
    (outerRadius innerRadius : num) (donut : bool)
    (numberFormat colorScheme : string)
    (showLabels labelsOutside labelLine : bool) (labelPosition : string)
    (showTooltip highlight : bool)
    (labelType legendVertical legendHorizontal legendOrientation : string)
    (marginTop marginBottom marginRight marginLeft : string)
    : M (JsValue num) :=
  nameValuesChartData ← transformSeriesData data;
  let formatter :=
    VFun (PieLabelCallback
            (fun params => Pie.formatPieLabel params numberFormat labelType)) in
  let colorScale := getScale colorScheme in
  let chartOptions :=
    object [
      "title" ::= object [
        "show" ::= VBool showTitle;
        "text" ::= VStr chartTitle;
        "subtext" ::= VStr chartSubTitle;
        "left" ::= VStr "center" ];
      "color" ::= VArr (map VStr (scale_colors colorScale));
      "tooltip" ::= object [
        "show" ::= VBool showTooltip;
        "trigger" ::= VStr "item";
        "formatter" ::= formatter;
        "valueFormatter" ::=
          VFun (ValueCallback (fun value => formatNumber numberFormat value)) ];
      "legend" ::= object [
        "show" ::= VBool showLegend;
        "orient" ::= VStr legendOrientation;
        "left" ::= VStr legendHorizontal;
        "top" ::= VStr legendVertical ];
      "series" ::= VArr [
        object [
          "type" ::= VStr "pie";
          "radius" ::=
            (if donut
             then VArr [ VStr (number_to_string innerRadius +:+ "%");
                         VStr (number_to_string outerRadius +:+ "%") ]
             else VStr (number_to_string outerRadius +:+ "%"));
          "data" ::= nameValuesChartData;
          "emphasis" ::= object [
            "label" ::= object [
              "show" ::= VBool highlight;
              "fontSize" ::= VStr "18";
              "fontWeight" ::= VStr "bold";
              "formatter" ::= formatter ];
            "itemStyle" ::= object [
              "shadowBlur" ::= VInt 10;
              "shadowOffsetX" ::= VInt 0;
              "shadowColor" ::= VStr "rgba(0, 0, 0, 0.5)" ] ];
          "labelLine" ::=
            (if labelsOutside && labelLine
             then object [ "show" ::= VBool true ]
             else object [ "show" ::= VBool false ]);
          "label" ::=
            (if labelsOutside
             then object [
                    "show" ::= VBool showLabels;
                    "formatter" ::= formatter;
                    "position" ::= VStr labelPosition;
                    "alignTo" ::= VStr "none";
                    "bleedMargin" ::= VInt 5 ]
             else object [
                    "show" ::= VBool showLabels;
                    "position" ::= VStr labelPosition;
                    "formatter" ::= formatter ]);
          "top" ::= VStr marginTop;
          "bottom" ::= VStr marginBottom;
          "right" ::= VStr marginRight;
          "left" ::= VStr marginLeft ] ] ]
  in
  mret chartOptions.

End Transform.
End PieStore.

(** The plain bar transform on the store. *)
Module BarStore.
Import Store.
Section Transform.
Context {num : Type} {NumOps : JsNumber num} {host : Externals num}.

Definition buildEchartOptions (data : JsValue num) (cols : string)
    (invertBars showLegend seriesLabelsShow : bool)
    (seriesLabelsPosition : string) (seriesCategoriesShow : bool)
    (numberFormat seriesLabelsFormat colorScheme : string)
    (showTooltip : bool) : M (JsValue num) :=
  let colorScale := getScale colorScheme in
  let labelFormatter :=
    VFun (BarLabelCallback (Bar.labelFormatter numberFormat seriesLabelsFormat)) in
  keys ← Array_mapM data (fun v => Object_keysM v);
  keysSets ← new_SetM;
  forEachM keys (fun el => forEachM el (fun k => Set_addM keysSets k));;
  dimensions ← Array_fromM keysSets;
  let yAxisAsCategories :=
    if invertBars
    then object [ "type" ::= VStr "category"; "show" ::= VBool seriesCategoriesShow ]
    else object [] in
  let xAxisAsCategories :=
    if negb invertBars
    then object [ "type" ::= VStr "category"; "show" ::= VBool seriesCategoriesShow ]
    else object [] in
  let axisEncoding :=
    if invertBars
    then object [ "y" ::= VStr cols; "x" ::= VNull ]
    else object [ "x" ::= VStr cols; "y" ::= VNull ] in
  let singleSeriesConfig :=
    object [
      "name" ::= object [];
      "type" ::= VStr "bar";
      "encode" ::= object [ Spread axisEncoding ];
      "label" ::= object [
        "show" ::= VBool seriesLabelsShow;
        "position" ::= VStr seriesLabelsPosition;
        "formatter" ::= labelFormatter ];
      "itemStyle" ::= object [ "color" ::= VStr "auto" ] ] in
  allSeriesConfigs ← new_ArrayM;
  forEachM dimensions
    (fun dim =>
       if negb (String.eqb dim cols) then
         let setValueAxisEncoding :=
           if invertBars
           then object [ Spread (prop singleSeriesConfig "encode"); "x" ::= VStr dim ]
           else object [ Spread (prop singleSeriesConfig "encode"); "y" ::= VStr dim ] in
         Array_pushM allSeriesConfigs
           (object [
              Spread singleSeriesConfig;
              "name" ::= VStr dim;
              "itemStyle" ::= object [ "color" ::= VStr (scale_color colorScale dim) ];
              "encode" ::= object [ Spread setValueAxisEncoding ] ])
       else mret tt);;
  let chartOptions :=
    object [
      "dataset" ::= object [
        "dimensions" ::= VArr (map VStr dimensions);
        "source" ::= data ];
      "legend" ::= object [ "show" ::= VBool showLegend ];
      "tooltip" ::= object [ "show" ::= VBool showTooltip ];
      "yAxis" ::= object [ Spread yAxisAsCategories ];
      "xAxis" ::= object [ Spread xAxisAsCategories ];
      "series" ::= allSeriesConfigs ] in
  mret chartOptions.

End Transform.
End BarStore.

(** The bar transform with stacking on the store. *)
Module BarStackedStore.
Import Store.
Section Transform.
Context {num : Type} {NumOps : JsNumber num} {host : Externals num}.

Definition buildEchartOptions (data : JsValue num) (cols : string)
    (invertBars showLegend seriesLabelsShow : bool)
    (seriesLabelsPosition : string) (seriesCategoriesShow : bool)
    (numberFormat seriesLabelsFormat colorScheme : string)
    (showTooltip stackSeries : bool)
    (marginTop marginBottom marginRight marginLeft legendOrientation : string)
    : M (JsValue num) :=
  let colorScale := getScale colorScheme in
  let labelFormatter :=
    VFun (BarLabelCallback
            (BarStacked.labelFormatter numberFormat seriesLabelsFormat)) in
  keys ← Array_mapM data (fun v => Object_keysM v);
  keysSets ← new_SetM;
  forEachM keys (fun el => forEachM el (fun k => Set_addM keysSets k));;
  dimensions ← Array_fromM keysSets;
  let yAxisAsCategories :=
    if invertBars
    then object [ "type" ::= VStr "category"; "show" ::= VBool seriesCategoriesShow ]
    else object [] in
  let xAxisAsCategories :=
    if negb invertBars
    then object [ "type" ::= VStr "category"; "show" ::= VBool seriesCategoriesShow ]
    else object [] in
  let axisEncoding :=
    if invertBars
    then object [ "y" ::= VStr cols; "x" ::= VNull ]
    else object [ "x" ::= VStr cols; "y" ::= VNull ] in
  let stackSettings :=
    if stackSeries then object [ "stack" ::= VStr "totals" ] else object [] in
  let singleSeriesConfig :=
    object [
      "name" ::= object [];
      "type" ::= VStr "bar";
      "encode" ::= object [ Spread axisEncoding ];
      "label" ::= object [
        "show" ::= VBool seriesLabelsShow;
        "position" ::= VStr seriesLabelsPosition;
        "formatter" ::= labelFormatter ];
      "itemStyle" ::= object [ "color" ::= VStr "auto" ];
      Spread stackSettings ] in
  allSeriesConfigs ← new_ArrayM;
  forEachM dimensions
    (fun dim =>
       if negb (String.eqb dim cols) then
         let setValueAxisEncoding :=
           if invertBars
           then object [ Spread (prop singleSeriesConfig "encode"); "x" ::= VStr dim ]
           else object [ Spread (prop singleSeriesConfig "encode"); "y" ::= VStr dim ] in
         Array_pushM allSeriesConfigs
           (object [
              Spread singleSeriesConfig;
              "name" ::= VStr dim;
              "itemStyle" ::= object [ "color" ::= VStr (scale_color colorScale dim) ];
              "encode" ::= object [ Spread setValueAxisEncoding ] ])
       else mret tt);;
  let legendOptions := BarStacked.legendOrientationBuilder legendOrientation in
  let chartOptions :=
    object [
      "dataset" ::= object [
        "dimensions" ::= VArr (map VStr dimensions);
        "source" ::= data ];
      "legend" ::= object [ "show" ::= VBool showLegend; Spread legendOptions ];
      "tooltip" ::= object [
        "show" ::= VBool showTooltip;
        "valueFormatter" ::=
          VFun (ValueCallback (fun value => formatNumber numberFormat value)) ];
      "yAxis" ::= object [ Spread yAxisAsCategories ];
      "xAxis" ::= object [ Spread xAxisAsCategories ];
      "series" ::= allSeriesConfigs;
      "grid" ::= object [
        "top" ::= VStr marginTop;
        "bottom" ::= VStr marginBottom;
        "right" ::= VStr marginRight;
        "left" ::= VStr marginLeft ] ] in
  mret chartOptions.

End Transform.
End BarStackedStore.

(** The store of the end-to-end scenario: the two rows and the array
    [data] that refers to them. *)
Definition region_sales_store : Store.Heap (num := Z) :=
  [ Store.CRow [("region", SStr "A"); ("sales", SNum 10%Z)];
    Store.CRow [("region", SStr "B"); ("sales", SNum 20%Z)];
    Store.CArray [VRef 0; VRef 1] ].

(** ** [transformProps]

    The entry point of each plugin.  [chartProps] is taken with the fields
    that [transformProps] reads, and [formData] with the fields that it
    destructures, at the types of the parameters they are passed to.
    [queriesData[0].data] throws a [TypeError] when [queriesData] is empty,
    which is [None] here. *)

(** One entry of [queriesData]. *)
Record QueryData (num : Type) : Type := {
  query_data : list (Row num)
}.

Arguments query_data {num} _.

Record ChartProps (FormData num : Type) : Type := {
  props_width : num;
  props_height : num;
  props_formData : FormData;
  props_queriesData : list (QueryData num)
}.

Arguments props_width {FormData num} _.
Arguments props_height {FormData num} _.
Arguments props_formData {FormData num} _.
Arguments props_queriesData {FormData num} _.

(** [transformProps] of the pie plugin. *)
Module PieProps.

Record FormData (num : Type) : Type := {
  chartTitle : string;
  chartSubTitle : string;
  showLegend : bool;
  showTitle : bool;
  outerRadius : num;
  donut : bool;
  innerRadius : num;
  numberFormat : string;
  colorScheme : string;
  showLabels : bool;
  labelsOutside : bool;
  labelLine : bool;
  labelPosition : string;
  showTooltip : bool;
  highlight : bool;
  labelType : string;
  legendVertical : string;
  legendHorizontal : string;
  legendOrientation : string;
  marginTop : string;
  marginBottom : string;
  marginRight : string;
  marginLeft : string
}.

Section Transform.
Context {num : Type} {NumOps : JsNumber num} {host : Externals num}.

Definition transformProps (chartProps : ChartProps (FormData num) num)
    : option (JsValue num) :=
  let width := props_width chartProps in
  let height := props_height chartProps in
  let formData := props_formData chartProps in
  let queriesData := props_queriesData chartProps in
  match queriesData with
  | [] => None
  | first :: _ =>
      let data := query_data first in
      let chartOptions :=
        Pie.buildPieChart data
          (chartTitle _ formData) (chartSubTitle _ formData)
          (showLegend _ formData) (showTitle _ formData)
          (outerRadius _ formData) (innerRadius _ formData) (donut _ formData)
          (numberFormat _ formData) (colorScheme _ formData)
          (showLabels _ formData) (labelsOutside _ formData)
          (labelLine _ formData) (labelPosition _ formData)
          (showTooltip _ formData) (highlight _ formData)
          (labelType _ formData) (legendVertical _ formData)
          (legendHorizontal _ formData) (legendOrientation _ formData)
          (marginTop _ formData) (marginBottom _ formData)
          (marginRight _ formData) (marginLeft _ formData) in
      Some (object [
              "width" ::= VNum width;
              "height" ::= VNum height;
              "data" ::= rows_value data;
              "chartOptions" ::= chartOptions ])
  end.

End Transform.
End PieProps.

(** [transformProps] of the bar plugin ([transformProps.ts]). *)
Module BarProps.

Record FormData : Type := {
  cols : string;
  invertBars : bool;
  showLegend : bool;
  seriesLabelsShow : bool;
  seriesLabelsPosition : string;
  seriesCategoriesShow : bool;
  seriesLabelsFormat : string;
  numberFormat : string;
  colorScheme : string;
  showTooltip : bool
}.

Section Transform.
Context {num : Type} {NumOps : JsNumber num} {host : Externals num}.

Definition transformProps (chartProps : ChartProps FormData num)
    : option (JsValue num) :=
  let width := props_width chartProps in
  let height := props_height chartProps in
  let formData := props_formData chartProps in
  let queriesData := props_queriesData chartProps in
  match queriesData with
  | [] => None
  | first :: _ =>
      let data := query_data first in
      let chartOptions :=
        Bar.buildEchartOptions data
          (cols formData) (invertBars formData) (showLegend formData)
          (seriesLabelsShow formData) (seriesLabelsPosition formData)
          (seriesCategoriesShow formData) (numberFormat formData)
          (seriesLabelsFormat formData) (colorScheme formData)
          (showTooltip formData) in
      Some (object [
              "width" ::= VNum width;
              "height" ::= VNum height;
              "data" ::= rows_value data;
              "chartOptions" ::= chartOptions ])
  end.

End Transform.
End BarProps.

(** [transformProps] of the bar transform with stacking
    ([src/unnamed/part_002]). *)
Module BarStackedProps.

Record FormData : Type := {
  cols : string;
  invertBars : bool;
  showLegend : bool;
  seriesLabelsShow : bool;
  seriesLabelsPosition : string;
  seriesCategoriesShow : bool;
  seriesLabelsFormat : string;
  numberFormat : string;
  colorScheme : string;
  showTooltip : bool;
  stackSeries : bool;
  marginTop : string;
  marginBottom : string;
  marginRight : string;
  marginLeft : string;
  legendOrientation : string
}.

Section Transform.
Context {num : Type} {NumOps : JsNumber num} {host : Externals num}.

Definition transformProps (chartProps : ChartProps FormData num)
    : option (JsValue num) :=
  let width := props_width chartProps in
  let height := props_height chartProps in
  let formData := props_formData chartProps in
  let queriesData := props_queriesData chartProps in
  match queriesData with
  | [] => None
  | first :: _ =>
      let data := query_data first in
      let chartOptions :=
        BarStacked.buildEchartOptions data
          (cols formData) (invertBars formData) (showLegend formData)
          (seriesLabelsShow formData) (seriesLabelsPosition formData)
          (seriesCategoriesShow formData) (numberFormat formData)
          (seriesLabelsFormat formData) (colorScheme formData)
          (showTooltip formData) (stackSeries formData)
          (marginTop formData) (marginBottom formData)
          (marginRight formData) (marginLeft formData)
          (legendOrientation formData) in
      Some (object [
              "width" ::= VNum width;
              "height" ::= VNum height;
              "data" ::= rows_value data;
              "chartOptions" ::= chartOptions ])
  end.

End Transform.
End BarStackedProps.

(** ** The render adapter ([src/unnamed/part_001])

    The component [Echart] keeps two refs, [divRef] and [chartRef], and runs
    two effects.  The refs are the state; the calls to the charting library
    ([init], [setOption], [resize]) are recorded in the order in which they
    are made.  When React runs an effect and when it sets [divRef.current]
    is not the component's to decide: they are events. *)

Module Echart.
Section Component.
Context {num : Type} {Div Chart : Type}.

(** [init] of the charting library: the instance it makes for an element. *)
Context (init : Div -> Chart).

(** A call to the charting library. *)
Inductive Call : Type :=
| CallInit (div : Div)
| CallSetOption (chart : Chart) (option : JsValue num) (notMerge : bool)
| CallResize (chart : Chart) (width height : num).

Record Refs : Type := {
  divRef : option Div;       (* [divRef.current]; [None] is [null] *)
  chartRef : option Chart;   (* [chartRef.current]; [None] is [undefined] *)
  calls : list Call
}.

(** The refs of a component that has just been created. *)
Definition initial : Refs :=
  {| divRef := None; chartRef := None; calls := [] |}.

(** The effect on [[chartOptions]]. *)
Definition chartOptionsEffect (chartOptions : JsValue num) (s : Refs) : Refs :=
  match divRef s with
  | None => s
  | Some div =>
      let s :=
        match chartRef s with
        | None =>
            {| divRef := divRef s;
               chartRef := Some (init div);
               calls := calls s ++ [CallInit div] |}
        | Some _ => s
        end in
      match chartRef s with
      | Some chart =>
          {| divRef := divRef s;
             chartRef := chartRef s;
             calls := calls s ++ [CallSetOption chart chartOptions true] |}
      | None => s
      end
  end.

(** The effect on [[width, height]]. *)
Definition sizeEffect (width height : num) (s : Refs) : Refs :=
  match chartRef s with
  | Some chart =>
      {| divRef := divRef s;
         chartRef := chartRef s;
         calls := calls s ++ [CallResize chart width height] |}
  | None => s
  end.

(** [getEchartInstance] of the handle that [useImperativeHandle] exposes. *)
Definition getEchartInstance (s : Refs) : option Chart := chartRef s.

(** What happens to a component: React attaches or detaches the element of
    [divRef], or runs one of the two effects with the current props. *)
Inductive Event : Type :=
| SetDiv (div : option Div)
| ChartOptionsChanged (chartOptions : JsValue num)
| SizeChanged (width height : num).

Definition step (s : Refs) (e : Event) : Refs :=
  match e with
  | SetDiv div =>
      {| divRef := div; chartRef := chartRef s; calls := calls s |}
  | ChartOptionsChanged chartOptions => chartOptionsEffect chartOptions s
  | SizeChanged width height => sizeEffect width height s
  end.

Definition run (events : list Event) (s : Refs) : Refs :=
  fold_left step events s.

(** The [init] calls among a list of calls. *)
Definition is_init (c : Call) : bool :=
  match c with
  | CallInit _ => true
  | _ => false
  end.

(** The instance that a call is made on; [init] is made on none. *)
Definition call_target (c : Call) : option Chart :=
  match c with
  | CallInit _ => None
  | CallSetOption chart _ _ => Some chart
  | CallResize chart _ _ => Some chart
  end.

(** What holds of the refs of a component at any time: before there is an
    instance no call has been made; once there is one, the calls start with
    the [init] that made it, and all other calls are made on it. *)
Definition consistent (s : Refs) : Prop :=
  match chartRef s with
  | None => calls s = []
  | Some chart =>
      exists (div : Div) (rest : list Call),
        calls s = CallInit div :: rest
        /\ chart = init div
        /\ Forall (fun c => call_target c = Some chart) rest
  end.

End Component.
End Echart.

(** ** The control panels ([controlPanel.ts] of the two plugins)

    The section of each panel that the plugin writes out itself; the "Query"
    section is put together from the shared controls of the host.  [t], the
    translation function of the host, is taken to return its argument.
    Control values are booleans, strings and whole numbers. *)

(** [Boolean(v)] *)
Definition Boolean (v : JsValue Z) : bool :=
  match v with
  | VData SUndefined | VData SNull => false
  | VData (SBool b) => b
  | VData (SNum n) => negb (n =? 0)%Z
  | VData (SStr s) => negb (String.length s =? 0)%nat
  | VArr _ | VObj _ | VFun _ | VRef _ => true
  end.

(** [v?.k] *)
Definition optional_prop (v : JsValue Z) (k : string) : JsValue Z :=
  match v with
  | VData SUndefined | VData SNull => VUndefined
  | _ => prop v k
  end.

Inductive ControlType : Type :=
| CheckboxControl
| TextControl
| SelectControl
| SliderControl.

(** The [config] of a control.  A property that a config does not have is
    [None]; [visibility] takes the [controls] of the panel. *)
Record ControlConfig : Type := {
  config_type : ControlType;
  config_label : string;
  config_description : string;
  config_renderTrigger : bool;
  config_default : Scalar Z;
  config_choices : option (list (string * string));
  config_min : option Z;
  config_max : option Z;
  config_step : option Z;
  config_visibility : option (JsValue Z -> bool)
}.

(** An item of [controlSetRows]: the name of a shared control, or a control
    of the plugin. *)
Inductive ControlItem : Type :=
| SharedControl (name : string)
| CustomControl (name : string) (config : ControlConfig).

Definition checkbox (label : string) (default : bool) (description : string)
    (visibility : option (JsValue Z -> bool)) : ControlConfig :=
  {| config_type := CheckboxControl;
     config_label := label;
     config_description := description;
     config_renderTrigger := true;
     config_default := SBool default;
     config_choices := None;
     config_min := None; config_max := None; config_step := None;
     config_visibility := visibility |}.

Definition text (label default description : string)
    (visibility : option (JsValue Z -> bool)) : ControlConfig :=
  {| config_type := TextControl;
     config_label := label;
     config_description := description;
     config_renderTrigger := true;
     config_default := SStr default;
     config_choices := None;
     config_min := None; config_max := None; config_step := None;
     config_visibility := visibility |}.

Definition select (label default : string) (choices : list (string * string))
    (description : string) : ControlConfig :=
  {| config_type := SelectControl;
     config_label := label;
     config_description := description;
     config_renderTrigger := true;
     config_default := SStr default;
     config_choices := Some choices;
     config_min := None; config_max := None; config_step := None;
     config_visibility := None |}.

Definition slider (label : string) (min max step default : Z)
    (description : string) (visibility : option (JsValue Z -> bool))
    : ControlConfig :=
  {| config_type := SliderControl;
     config_label := label;
     config_description := description;
     config_renderTrigger := true;
     config_default := SNum default;
     config_choices := None;
     config_min := Some min; config_max := Some max; config_step := Some step;
     config_visibility := visibility |}.

(** The name of an item and, for a control of the plugin, its config. *)
Definition item_name (i : ControlItem) : string :=
  match i with
  | SharedControl name => name
  | CustomControl name _ => name
  end.

Definition custom_controls (rows : list (list ControlItem))
    : list (string * ControlConfig) :=
  flat_map
    (fun row =>
       flat_map
         (fun i =>
            match i with
            | SharedControl _ => []
            | CustomControl name config => [(name, config)]
            end)
         row)
    rows.

(** The control panel of the pie plugin. *)
Module PieControls.
Section Panel.
(** [D3_FORMAT_OPTIONS] and [D3_FORMAT_DOCS] of [@superset-ui/chart-controls]. *)
Context (D3_FORMAT_OPTIONS : list (string * string)) (D3_FORMAT_DOCS : string).

(** [({ controls }) => Boolean(controls?.showTitle?.value)] *)
Definition title_visibility (controls : JsValue Z) : bool :=
  Boolean (optional_prop (optional_prop controls "showTitle") "value").

(** [({ controls }) => Boolean(controls?.show_labels?.value)] *)
Definition labels_visibility (controls : JsValue Z) : bool :=
  Boolean (optional_prop (optional_prop controls "show_labels") "value").

(** [({ controls }) => Boolean(controls?.donut?.value)] *)
Definition donut_visibility (controls : JsValue Z) : bool :=
  Boolean (optional_prop (optional_prop controls "donut") "value").

(** [controlSetRows] of the section 'Pie Chart Customizations'. *)
Definition controlSetRows : list (list ControlItem) :=
  [ [ SharedControl "color_scheme" ];
    [ CustomControl "showLegend"
        (checkbox "Legend" true "Show Legend" None) ];
    [ CustomControl "showTooltip"
        (checkbox "Tooltip" true "Show Tooltip" None) ];
    [ CustomControl "highlight"
        (checkbox "Highlighted Text" true
           "Display Highlighted text Pie Chart Categories on mouse hover" None) ];
    [ CustomControl "showTitle"
        (checkbox "Title" true "Show Title" None) ];
    [ CustomControl "chartTitle"
        (text "Title" EmptyString "Pie Chart Title" (Some title_visibility)) ];
    [ CustomControl "chartSubTitle"
        (text "SubTitle" EmptyString "Pie Chart SubTitle"
           (Some title_visibility)) ];
    [ CustomControl "show_labels"
        (checkbox "Show Labels" true "Whether to display the labels." None) ];
    [ CustomControl "labels_outside"
        (checkbox "Put labels outside" true "Put the labels outside of the pie?"
           (Some labels_visibility)) ];
    [ CustomControl "label_line"
        (checkbox "Label Line" true
           "Draw line from Pie to label when labels outside?"
           (Some labels_visibility)) ];
    [ CustomControl "labelPosition"
        (select "Label Position" "outside"
           [ ("center", "Center"); ("outside", "Outside"); ("inside", " Inside") ]
           "Label position") ];
    [ CustomControl "label_type"
        (select "Label Type" "key_value"
           [ ("key", "Category Name");
             ("value", "Value");
             ("percent", "Percentage");
             ("key_value", "Category and Value");
             ("key_percent", "Category and Percentage");
             ("key_value_percent", "Category, Value and Percentage") ]
           "What should be shown on the label?") ];
    [ CustomControl "legendHorizontal"
        (select "Legend Horizontal Position" "right"
           [ ("left", "LEFT"); ("center", "CENTER"); ("right", "RIGHT") ]
           "Legend Horizontal alignment") ];
    [ CustomControl "legendVertical"
        (select "Legend Vertical Position" "top"
           [ ("top", "TOP"); ("middle", "MIDDLE"); ("bottom", "BOTTOM") ]
           "Legend Vertical alignment") ];
    [ CustomControl "legendOrientation"
        (select "Legend Orientation" "vertical"
           [ ("vertical", "Verical"); ("horizontal", "horizontal") ]
           "Legend Horizontal alignment") ];
    [ CustomControl "number_format"
        (select "Label Value Format" "SMART_NUMBER" D3_FORMAT_OPTIONS
           D3_FORMAT_DOCS) ];
    [ CustomControl "outerRadius"
        (slider "Outer Radius" 10 100 1 70 "Outer edge of Pie chart" None) ];
    [ CustomControl "donut"
        (checkbox "Donut" false "Do you want a donut or a pie?" None) ];
    [ CustomControl "innerRadius"
        (slider "Inner Radius" 0 100 1 50 "Inner radius of donut hole"
           (Some donut_visibility)) ];
    [ CustomControl "marginTop"
        (text "Margin Top" "5%"
           "Margin Top in % or px or 'top', 'middle', or 'bottom'" None) ];
    [ CustomControl "marginBottom"
        (text "Margin Bottom" "5%" "Margin Bottom in %" None) ];
    [ CustomControl "marginRight"
        (text "Margin Right" "5%" "Margin Right in %, or px (10% or 20)" None) ];
    [ CustomControl "marginLeft"
        (text "Margin Left" "5%"
           "Margin LEFT in %,px or 'left', 'center', or 'right'" None) ] ].

End Panel.
End PieControls.

(** The control panel of the bar plugin. *)
Module BarControls.
Section Panel.
Context (D3_FORMAT_OPTIONS : list (string * string)) (D3_FORMAT_DOCS : string).

(** [controlSetRows] of the section 'Customize Chart'. *)
Definition controlSetRows : list (list ControlItem) :=
  [ [ SharedControl "color_scheme" ];
    [ CustomControl "showLegend"
        (checkbox "Legend" true "Show Legend" None) ];
    [ CustomControl "invert_bars"
        (checkbox "Invert Bars" false "Transpose X / Y axis" None) ];
    [ CustomControl "showTooltip"
        (checkbox "Show Tooltip" true "Enable Tooltip on the chart" None) ];
    [ CustomControl "stackSeries"
        (checkbox "Stack" false "Stack Bars" None) ];
    [ CustomControl "seriesLabelsShow"
        (checkbox "Label" false "Enable Series Label" None) ];
    [ CustomControl "seriesCategoriesShow"
        (checkbox "Show Categories Axis" true "Show Categories Axis" None) ];
    [ CustomControl "seriesLabelsPosition"
        (select "Label Position" "top"
           [ ("top", "Top");
             ("inside", "Inside");
             ("bottom", "Bottom");
             ("left", "Left");
             ("right", "Right");
             ("insideLeft", "Inside Left");
             ("insideRight", "Inside Right");
             ("insideTop", "Inside Top");
             ("insideBottom", "Inside Bottom");
             ("insideTopLeft", "Inside Top Left");
             ("insideBottomLeft", "Inside Bottom Left");
             ("insideTopRight", "Inside Top Right");
             ("insideBottomRight", "Inside Bottom Right") ]
           "Series Label Position compared to the bar") ];
    [ CustomControl "seriesLabelsFormat"
        (select "Label Custom Display" "default"
           [ ("default", "Default");
             ("seriesNameCategoryValue", "Series Name - Category : Value");
             ("categoryValue", " Category : Value");
             ("seriesNameValue", " SeriesName : Value") ]
           "Series Label Custom Display format") ];
    [ CustomControl "legendOrientation"
        (select "Legend Orientation" "top"
           [ ("top", "Top"); ("bottom", "Bottom"); ("left", "Left");
             ("right", "Right") ]
           "Legend Position") ];
    [ CustomControl "number_format"
        (select "Label Value Format" "SMART_NUMBER" D3_FORMAT_OPTIONS
           D3_FORMAT_DOCS) ];
    [ CustomControl "marginTop"
        (text "Margin Top" "5%"
           "Margin Top in % or px or 'top', 'middle', or 'bottom'" None) ];
    [ CustomControl "marginBottom"
        (text "Margin Bottom" "5%" "Margin Bottom in %" None) ];
    [ CustomControl "marginRight"
        (text "Margin Right" "5%" "Margin Right in %, or px (10% or 20)" None) ];
    [ CustomControl "marginLeft"
        (text "Margin Left" "5%"
           "Margin LEFT in %,px or 'left', 'center', or 'right'" None) ] ].

End Panel.
End BarControls.

(** The choice values that a select control of a panel offers; none for a
    name that the panel does not have. *)
Definition choices_of (rows : list (list ControlItem)) (name : string)
    : list string :=
  flat_map
    (fun nc =>
       if String.eqb nc.1 name
       then map fst (default [] (config_choices nc.2))
       else [])
    (custom_controls rows).

(** A default that fits its control: a boolean for a checkbox, a string for
    a text control, one of the choice values for a select control, and for
    a slider a number of the range that the steps from the minimum reach. *)
Definition valid_default (c : ControlConfig) : bool :=
  match config_type c, config_default c with
  | CheckboxControl, SBool _ => true
  | TextControl, SStr _ => true
  | SelectControl, SStr v =>
      existsb (String.eqb v) (map fst (default [] (config_choices c)))
  | SliderControl, SNum n =>
      match config_min c, config_max c, config_step c with
      | Some lo, Some hi, Some step =>
          ((lo <=? n) && (n <=? hi) && (0 <? step)
           && ((n - lo) mod step =? 0))%Z
      | _, _, _ => false
      end
  | _, _ => false
  end.

(** Whether the [name] of an object is the string [k]. *)
Definition has_name {num : Type} {NumOps : JsNumber num} (k : string)
    (v : JsValue num) : bool :=
  match prop v "name" with
  | VData (SStr n) => String.eqb n k
  | _ => false
  end.

(** * Properties *)

(** ** The transforms on examples *)

Example transformSeriesData_region_sales :
  Pie.transformSeriesData region_sales_rows
  = [ VObj [("name", VStr "region"); ("value", VStr "A")];
      VObj [("name", VStr "sales"); ("value", VNum 10%Z)];
      VObj [("name", VStr "region"); ("value", VStr "B")];
      VObj [("name", VStr "sales"); ("value", VNum 20%Z)] ].
Proof. reflexivity. Qed.

(** A key that a row lacks has the value [undefined] in that row. *)
Example transformSeriesData_missing_key :
  Pie.transformSeriesData
    [ [("a", SNum 1%Z)]; [("b", SNum 2%Z); ("a", SNum 3%Z)] ]
  = [ VObj [("name", VStr "a"); ("value", VNum 1%Z)];
      VObj [("name", VStr "b"); ("value", VUndefined)];
      VObj [("name", VStr "a"); ("value", VNum 3%Z)];
      VObj [("name", VStr "b"); ("value", VNum 2%Z)] ].
Proof. reflexivity. Qed.

Example dimensions_first_appearance :
  Bar.dimensions
    [ [("b", SNum 2%Z); ("a", SNum 3%Z)]; [("a", SNum 1%Z); ("c", SNull)] ]
  = ["b"; "a"; "c"].
Proof. reflexivity. Qed.

Example formatPieLabel_key_value_percent :
  Pie.formatPieLabel (host := example_host)
    {| pie_name := SStr "A"; pie_value := SNum 10%Z; pie_percent := SNum 20%Z |}
    "SMART_NUMBER" "key_value_percent"
  = SStr "A: 10 (20%)".
Proof. reflexivity. Qed.

Example labelFormatter_seriesNameCategoryValue :
  Bar.labelFormatter (host := example_host) "SMART_NUMBER"
    "seriesNameCategoryValue"
    {| bar_seriesName := "sales"; bar_name := SStr "A";
       bar_value := [("region", SStr "A"); ("sales", SNum 10%Z)] |}
  = "sales - A : 10".
Proof. reflexivity. Qed.

Example legend_of_stacked_bar :
  prop (BarStacked.buildEchartOptions (host := example_host) region_sales_rows
          "region" true true true "top" true "SMART_NUMBER" "default"
          "supersetColors" true true "5%" "5%" "5%" "5%" "bottom")
    "legend"
  = VObj [ ("show", VBool true); ("orient", VStr "horizontal");
           ("bottom", VInt 0) ].
Proof. reflexivity. Qed.

(** On the store, the pie transform leaves the two rows and their array in
    place and adds its set and its array. *)
Example store_transformSeriesData_region_sales :
  PieStore.transformSeriesData (VRef 2) region_sales_store
  = Some (VRef 4,
          region_sales_store
          ++ [ Store.CSet ["region"; "sales"];
               Store.CArray (Pie.transformSeriesData region_sales_rows) ]).
Proof. reflexivity. Qed.

(** ** Sets and loops *)

Lemma Set_has_spec (s : JsSet) (k : string) : Set_has s k = true <-> k ∈ s.
Proof.
  unfold Set_has. rewrite existsb_exists. split.
  - intros (x & Hin & Heq). apply String.eqb_eq in Heq. subst x.
    by apply list_elem_of_In.
  - intros Hin. exists k. split; [by apply list_elem_of_In | apply String.eqb_refl].
Qed.

Lemma elem_of_Set_add (s : JsSet) (k x : string) :
  x ∈ Set_add s k <-> x ∈ s \/ x = k.
Proof.
  unfold Set_add. destruct (Set_has s k) eqn:Hhas.
  - apply Set_has_spec in Hhas. split; [by left | intros [?| ->]; done].
  - rewrite elem_of_app, list_elem_of_singleton. done.
Qed.

Lemma NoDup_Set_add (s : JsSet) (k : string) : NoDup s -> NoDup (Set_add s k).
Proof.
  intros Hnd. unfold Set_add. destruct (Set_has s k) eqn:Hhas; [done|].
  apply NoDup_app. split_and!; [done | | apply NoDup_singleton].
  intros x Hx Hk. apply list_elem_of_singleton in Hk. subst x.
  apply Set_has_spec in Hx. congruence.
Qed.

(** Adding the keys of one row. *)
Lemma elem_of_forEach_add (el : list string) (s : JsSet) (x : string) :
  x ∈ forEach el (fun s k => Set_add s k) s <-> x ∈ s \/ x ∈ el.
Proof.
  unfold forEach. revert s. induction el as [|k el IH]; intros s; simpl.
  - rewrite elem_of_nil. tauto.
  - rewrite IH, elem_of_Set_add, elem_of_cons. tauto.
Qed.

Lemma NoDup_forEach_add (el : list string) (s : JsSet) :
  NoDup s -> NoDup (forEach el (fun s k => Set_add s k) s).
Proof.
  unfold forEach. revert s. induction el as [|k el IH]; intros s Hnd; simpl.
  - done.
  - apply IH. by apply NoDup_Set_add.
Qed.

(** Adding the keys of all rows. *)
Lemma elem_of_forEach_keys (keys : list (list string)) (s : JsSet) (x : string) :
  x ∈ forEach keys (fun s el => forEach el (fun s k => Set_add s k) s) s
  <-> x ∈ s \/ exists el, el ∈ keys /\ x ∈ el.
Proof.
  unfold forEach at 1. revert s. induction keys as [|el keys IH]; intros s; simpl.
  - split; [by left | intros [?|(el & Hel & _)]; [done | by apply elem_of_nil in Hel]].
  - rewrite IH, elem_of_forEach_add. split.
    + intros [[?|?]|(el' & ? & ?)]; [by left | right; exists el | right; exists el'];
        rewrite ?elem_of_cons; auto.
    + intros [?|(el' & Hel & ?)]; [by left; left|].
      apply elem_of_cons in Hel as [->|?]; [by left; right | right; by exists el'].
Qed.

Lemma NoDup_forEach_keys (keys : list (list string)) (s : JsSet) :
  NoDup s ->
  NoDup (forEach keys (fun s el => forEach el (fun s k => Set_add s k) s) s).
Proof.
  unfold forEach at 1. revert s. induction keys as [|el keys IH]; intros s Hnd; simpl.
  - done.
  - apply IH. by apply NoDup_forEach_add.
Qed.

(** A loop that pushes one element per visited item builds the mapped
    list; with a guard, the mapped list of the items that pass it. *)
Lemma forEach_push_if {A B : Type} (p : A -> bool) (f : A -> B)
    (xs : list A) (init : list B) :
  forEach xs (fun acc x => if p x then (acc ++ [f x]) else acc) init
  = (init ++ map f (List.filter p xs)).
Proof.
  unfold forEach. revert init. induction xs as [|x xs IH]; intros init; simpl.
  - by rewrite app_nil_r.
  - rewrite IH. destruct (p x); simpl; [by rewrite <- app_assoc | done].
Qed.

Lemma forEach_push {A B : Type} (f : A -> B) (xs : list A) (init : list B) :
  forEach xs (fun acc x => (acc ++ [f x])) init = (init ++ map f xs).
Proof.
  unfold forEach. revert init. induction xs as [|x xs IH]; intros init; simpl.
  - by rewrite app_nil_r.
  - rewrite IH. by rewrite <- app_assoc.
Qed.

Lemma forEach_forEach_push {A B C : Type} (f : A -> B -> C)
    (xs : list A) (ys : list B) (init : list C) :
  forEach xs (fun acc x => forEach ys (fun acc y => (acc ++ [f x y])) acc) init
  = (init ++ flat_map (fun x => map (f x) ys) xs).
Proof.
  unfold forEach at 1. revert init. induction xs as [|x xs IH]; intros init; simpl.
  - by rewrite app_nil_r.
  - rewrite IH, forEach_push. by rewrite <- app_assoc.
Qed.

Lemma length_flat_map_const {A B : Type} (f : A -> list B) (n : nat) (xs : list A) :
  (forall x, length (f x) = n) -> length (flat_map f xs) = length xs * n.
Proof.
  intros Hf. induction xs as [|x xs IH]; simpl; [done|].
  rewrite length_app, Hf, IH. lia.
Qed.

(** ** The dimensions *)

Section Dimensions.
Context {num : Type} {NumOps : JsNumber num} {host : Externals num}.

Lemma NoDup_dimensions (data : list (Row num)) : NoDup (Bar.dimensions data).
Proof. apply NoDup_forEach_keys, NoDup_nil_2. Qed.

Lemma elem_of_dimensions (data : list (Row num)) (k : string) :
  k ∈ Bar.dimensions data <-> exists d, d ∈ data /\ k ∈ Object_keys d.
Proof.
  unfold Bar.dimensions, Array_from, new_Set. rewrite elem_of_forEach_keys. split.
  - intros [H|(el & Hel & Hk)]; [by apply elem_of_nil in H|].
    apply list_elem_of_fmap in Hel as (d & -> & Hd). by exists d.
  - intros (d & Hd & Hk). right. exists (Object_keys d). split; [|done].
    apply list_elem_of_fmap. by exists d.
Qed.

Lemma elem_of_observed_keys (data : list (Row num)) (k : string) :
  k ∈ observed_keys data <-> exists d, d ∈ data /\ k ∈ Object_keys d.
Proof.
  unfold observed_keys. rewrite elem_of_union_list. split.
  - intros (X & HX & Hk). apply list_elem_of_fmap in HX as (d & -> & Hd).
    exists d. split; [done|]. by apply elem_of_list_to_set in Hk.
  - intros (d & Hd & Hk). exists (list_to_set (Object_keys d)). split.
    + apply list_elem_of_fmap. by exists d.
    + by apply elem_of_list_to_set.
Qed.

(** [dimensions] lists the observed keys, each once. *)
Lemma dimensions_observed_keys (data : list (Row num)) :
  list_to_set (Bar.dimensions data) = observed_keys data.
Proof.
  apply set_eq. intros k.
  by rewrite elem_of_list_to_set, elem_of_dimensions, elem_of_observed_keys.
Qed.

Lemma length_dimensions (data : list (Row num)) :
  length (Bar.dimensions data) = size (observed_keys data).
Proof.
  rewrite <- dimensions_observed_keys.
  symmetry. apply size_list_to_set, NoDup_dimensions.
Qed.

Lemma Pie_keysSets_dimensions (data : list (Row num)) :
  Pie.keysSets data = Bar.dimensions data.
Proof. reflexivity. Qed.

Lemma BarStacked_dimensions (data : list (Row num)) :
  BarStacked.dimensions data = Bar.dimensions data.
Proof. reflexivity. Qed.

End Dimensions.

(** ** The pie transform *)

Section PieProperties.
Context {num : Type} {NumOps : JsNumber num} {host : Externals num}.

(** The series data is one entry per row and key, row by row. *)
Lemma transformSeriesData_flat_map (data : list (Row num)) :
  Pie.transformSeriesData data
  = flat_map
      (fun d => map (fun k => Pie.nameValue k (row_get d k)) (Pie.keysSets data))
      data.
Proof. unfold Pie.transformSeriesData. by rewrite forEach_forEach_push. Qed.

(** C1: the series data of the pie transform is, row by row and for every
    observed key [k] in turn, the pair [{name: k, value: d[k]}]; the keys
    are those observed in some row, each once, so the data has
    (number of rows) × (number of observed keys) entries.  No key is left
    out: the transform takes no category column. *)
Theorem pie_series_data_pairs (data : list (Row num))
    (chartTitle chartSubTitle : string) (showLegend showTitle : bool)
    (outerRadius innerRadius : num) (donut : bool)
    (numberFormat colorScheme : string)
    (showLabels labelsOutside labelLine : bool) (labelPosition : string)
    (showTooltip highlight : bool)
    (labelType legendVertical legendHorizontal legendOrientation : string)
    (marginTop marginBottom marginRight marginLeft : string) :
  let chartOptions :=
    Pie.buildPieChart data chartTitle chartSubTitle showLegend showTitle
      outerRadius innerRadius donut numberFormat colorScheme showLabels
      labelsOutside labelLine labelPosition showTooltip highlight labelType
      legendVertical legendHorizontal legendOrientation
      marginTop marginBottom marginRight marginLeft in
  exists (pie : JsValue num) (keys : list string),
    prop chartOptions "series" = VArr [pie]
    /\ NoDup keys
    /\ (forall k, k ∈ keys <-> k ∈ observed_keys data)
    /\ array_elems (prop pie "data")
       = flat_map
           (fun d =>
              map (fun k => VObj [("name", VStr k); ("value", VData (row_get d k))])
                keys)
           data
    /\ length (array_elems (prop pie "data"))
       = length data * size (observed_keys data).
Proof.
  intros chartOptions.
  eexists _, (Pie.keysSets data). split; [reflexivity|].
  rewrite Pie_keysSets_dimensions.
  split; [apply NoDup_dimensions|].
  split; [intros k; by rewrite elem_of_dimensions, elem_of_observed_keys|].
  split.
  - simpl. rewrite transformSeriesData_flat_map. reflexivity.
  - simpl. rewrite transformSeriesData_flat_map, <- length_dimensions.
    apply length_flat_map_const. intros d. by rewrite length_map.
Qed.

End PieProperties.

Section PieRadius.
Context {num : Type} {NumOps : JsNumber num} {host : Externals num}.

(** C8: the radius of the pie series is the array
    [[innerRadius + "%", outerRadius + "%"]] when [donut] is true and the
    string [outerRadius + "%"] when it is false, whatever the two numbers
    are. *)
Theorem pie_radius_donut (data : list (Row num))
    (chartTitle chartSubTitle : string) (showLegend showTitle : bool)
    (outerRadius innerRadius : num)
    (numberFormat colorScheme : string)
    (showLabels labelsOutside labelLine : bool) (labelPosition : string)
    (showTooltip highlight : bool)
    (labelType legendVertical legendHorizontal legendOrientation : string)
    (marginTop marginBottom marginRight marginLeft : string) :
  let chartOptions (donut : bool) :=
    Pie.buildPieChart data chartTitle chartSubTitle showLegend showTitle
      outerRadius innerRadius donut numberFormat colorScheme showLabels
      labelsOutside labelLine labelPosition showTooltip highlight labelType
      legendVertical legendHorizontal legendOrientation
      marginTop marginBottom marginRight marginLeft in
  (exists pie : JsValue num,
     prop (chartOptions true) "series" = VArr [pie]
     /\ prop pie "radius"
        = VArr [ VStr (number_to_string innerRadius +:+ "%");
                 VStr (number_to_string outerRadius +:+ "%") ])
  /\ (exists pie : JsValue num,
        prop (chartOptions false) "series" = VArr [pie]
        /\ prop pie "radius" = VStr (number_to_string outerRadius +:+ "%")).
Proof.
  intros chartOptions. split; eexists; (split; [reflexivity|]); reflexivity.
Qed.

End PieRadius.

Section PieLabels.
Context {host : Externals Z}.

(** C3, as the code has it: ECharts passes [percent] as a number and the
    formatter appends the percent sign itself.  With name "A", value 10 and
    percent 20 the label is "A" for 'key', the formatted value for 'value',
    "20%" for 'percent', "A: " and the formatted value for 'key_value',
    "A: 20%" for 'key_percent', "A: ", the formatted value and " (20%)" for
    'key_value_percent', and "A" for every other label type. *)
Theorem formatPieLabel_label_types (numberFormat : string) :
  let params :=
    {| pie_name := SStr "A"; pie_value := SNum 10%Z; pie_percent := SNum 20%Z |} in
  let formatted := formatNumber numberFormat (SNum 10%Z) in
  Pie.formatPieLabel params numberFormat "key" = SStr "A"
  /\ Pie.formatPieLabel params numberFormat "value" = SStr formatted
  /\ Pie.formatPieLabel params numberFormat "percent" = SStr "20%"
  /\ Pie.formatPieLabel params numberFormat "key_value"
     = SStr ("A: " +:+ formatted)
  /\ Pie.formatPieLabel params numberFormat "key_percent" = SStr "A: 20%"
  /\ Pie.formatPieLabel params numberFormat "key_value_percent"
     = SStr ("A: " +:+ formatted +:+ " (20%)")
  /\ forall labelType : string,
       labelType ∉ ["key"; "value"; "percent"; "key_value"; "key_percent";
                    "key_value_percent"] ->
       Pie.formatPieLabel params numberFormat labelType = SStr "A".
Proof.
  intros params formatted. repeat (split; [reflexivity|]).
  intros labelType Hout. unfold Pie.formatPieLabel.
  repeat (apply not_elem_of_cons in Hout as [Hne Hout];
          apply String.eqb_neq in Hne; rewrite Hne; clear Hne).
  reflexivity.
Qed.

End PieLabels.

(** C3, witness: the label type "donut" is none of the six. *)
Lemma formatPieLabel_label_types_witness :
  ("donut" ∉ ["key"; "value"; "percent"; "key_value"; "key_percent";
              "key_value_percent"])
  /\ Pie.formatPieLabel (host := example_host)
       {| pie_name := SStr "A"; pie_value := SNum 10%Z; pie_percent := SNum 20%Z |}
       "SMART_NUMBER" "donut"
     = SStr "A".
Proof.
  assert (Hout : "donut" ∉ ["key"; "value"; "percent"; "key_value";
                            "key_percent"; "key_value_percent"]).
  { intros Hin.
    repeat (apply elem_of_cons in Hin as [Hin|Hin]; [discriminate Hin|]).
    by apply elem_of_nil in Hin. }
  split; [exact Hout|].
  apply (formatPieLabel_label_types (host := example_host) "SMART_NUMBER").
  exact Hout.
Defined.

(** C3, as stated: with [percent] the string "20%" the 'percent' label is
    "20%%", not "20%". *)
Lemma formatPieLabel_percent_string_counterexample :
  Pie.formatPieLabel (host := example_host)
    {| pie_name := SStr "A"; pie_value := SNum 10%Z; pie_percent := SStr "20%" |}
    "SMART_NUMBER" "percent"
  = SStr "20%%"
  /\ Pie.formatPieLabel (host := example_host)
       {| pie_name := SStr "A"; pie_value := SNum 10%Z; pie_percent := SStr "20%" |}
       "SMART_NUMBER" "percent"
     <> SStr "20%".
Proof. split; [reflexivity | discriminate]. Qed.

(** ** The bar transforms *)

Lemma length_filter_other (c : string) (l : list string) :
  NoDup l ->
  length (List.filter (fun d => negb (String.eqb d c)) l)
  + (if decide (c ∈ l) then 1 else 0)
  = length l.
Proof.
  induction 1 as [|x l Hx Hnd IH]; simpl.
  - done.
  - destruct (String.eqb_spec x c) as [->|Hne]; simpl.
    + destruct (decide (c ∈ c :: l)) as [_|Hout];
        [|exfalso; apply Hout, list_elem_of_here].
      destruct (decide (c ∈ l)); [done | lia].
    + destruct (decide (c ∈ l)) as [Hin|Hout];
        destruct (decide (c ∈ x :: l)) as [Hin'|Hout']; try lia.
      * exfalso. apply Hout'. by apply list_elem_of_further.
      * apply elem_of_cons in Hin' as [->|?]; done.
Qed.

Lemma elem_of_filter_other (c x : string) (l : list string) :
  x ∈ List.filter (fun d => negb (String.eqb d c)) l <-> x ∈ l /\ x <> c.
Proof.
  rewrite !list_elem_of_In, filter_In, negb_true_iff, String.eqb_neq. done.
Qed.

Lemma NoDup_filter_other (c : string) (l : list string) :
  NoDup l -> NoDup (List.filter (fun d => negb (String.eqb d c)) l).
Proof.
  induction 1 as [|x l Hx Hnd IH]; simpl; [constructor|].
  destruct (negb (String.eqb x c)); [|done].
  constructor; [|done]. rewrite elem_of_filter_other. tauto.
Qed.

Section BarProperties.
Context {num : Type} {NumOps : JsNumber num} {host : Externals num}.

(** The series of the plain transform, one per dimension other than
    [cols], in the order of the dimensions. *)
Lemma Bar_series (data : list (Row num)) (cols : string)
    (invertBars showLegend seriesLabelsShow : bool)
    (seriesLabelsPosition : string) (seriesCategoriesShow : bool)
    (numberFormat seriesLabelsFormat colorScheme : string)
    (showTooltip : bool) :
  series (Bar.buildEchartOptions data cols invertBars showLegend
            seriesLabelsShow seriesLabelsPosition seriesCategoriesShow
            numberFormat seriesLabelsFormat colorScheme showTooltip)
  = map
      (fun dim =>
         VObj [ ("name", VStr dim);
                ("type", VStr "bar");
                ("encode",
                 VObj (if invertBars
                       then [("y", VStr cols); ("x", VStr dim)]
                       else [("x", VStr cols); ("y", VStr dim)]));
                ("label",
                 VObj [ ("show", VBool seriesLabelsShow);
                        ("position", VStr seriesLabelsPosition);
                        ("formatter",
                         VFun (BarLabelCallback
                                 (Bar.labelFormatter numberFormat seriesLabelsFormat))) ]);
                ("itemStyle",
                 VObj [("color", VStr (scale_color (getScale colorScheme) dim))]) ])
      (List.filter (fun dim => negb (String.eqb dim cols)) (Bar.dimensions data)).
Proof.
  unfold series, Bar.buildEchartOptions. cbv zeta.
  rewrite forEach_push_if. simpl.
  apply map_ext. intros dim. destruct invertBars; reflexivity.
Qed.

(** The series of the transform with stacking: the same, and a [stack]
    property last when [stackSeries] is set. *)
Lemma BarStacked_series (data : list (Row num)) (cols : string)
    (invertBars showLegend seriesLabelsShow : bool)
    (seriesLabelsPosition : string) (seriesCategoriesShow : bool)
    (numberFormat seriesLabelsFormat colorScheme : string)
    (showTooltip stackSeries : bool)
    (marginTop marginBottom marginRight marginLeft legendOrientation : string) :
  series (BarStacked.buildEchartOptions data cols invertBars showLegend
            seriesLabelsShow seriesLabelsPosition seriesCategoriesShow
            numberFormat seriesLabelsFormat colorScheme showTooltip stackSeries
            marginTop marginBottom marginRight marginLeft legendOrientation)
  = map
      (fun dim =>
         VObj ([ ("name", VStr dim);
                 ("type", VStr "bar");
                 ("encode",
                  VObj (if invertBars
                        then [("y", VStr cols); ("x", VStr dim)]
                        else [("x", VStr cols); ("y", VStr dim)]));
                 ("label",
                  VObj [ ("show", VBool seriesLabelsShow);
                         ("position", VStr seriesLabelsPosition);
                         ("formatter",
                          VFun (BarLabelCallback
                                  (BarStacked.labelFormatter numberFormat
                                     seriesLabelsFormat))) ]);
                 ("itemStyle",
                  VObj [("color", VStr (scale_color (getScale colorScheme) dim))]) ]
               ++ (if stackSeries then [("stack", VStr "totals")] else [])))
      (List.filter (fun dim => negb (String.eqb dim cols)) (Bar.dimensions data)).
Proof.
  unfold series, BarStacked.buildEchartOptions. cbv zeta.
  rewrite forEach_push_if. simpl.
  apply map_ext. intros dim. destruct invertBars, stackSeries; reflexivity.
Qed.

(** The names of a list of series that was built from a list of
    dimensions. *)
Lemma series_names (mk : string -> JsValue num) (dims : list string) :
  (forall dim, prop (mk dim) "name" = VStr dim) ->
  map (fun s => prop s "name") (map mk dims) = map VStr dims.
Proof. intros Hmk. rewrite map_map. by apply map_ext. Qed.

Lemma VStr_inj : Inj (=) (=) (@VStr num).
Proof. intros a b Heq. by injection Heq. Qed.

(** What C2 says of a list of series names, given the dimensions. *)
Lemma series_names_distinct_observed (data : list (Row num)) (cols : string)
    (names : list (JsValue num)) :
  names = map VStr (List.filter (fun dim => negb (String.eqb dim cols))
                      (Bar.dimensions data)) ->
  length names + (if decide (cols ∈ observed_keys data) then 1 else 0)
  = size (observed_keys data)
  /\ NoDup names
  /\ forall n, n ∈ names ->
       exists k, n = VStr k /\ k ∈ observed_keys data /\ k <> cols.
Proof.
  intros ->. split_and!.
  - rewrite length_map, <- length_dimensions.
    rewrite <- (length_filter_other cols (Bar.dimensions data))
      by apply NoDup_dimensions.
    f_equal. rewrite <- dimensions_observed_keys.
    destruct (decide (cols ∈ Bar.dimensions data)) as [Hin|Hout].
    + by rewrite decide_True by by apply elem_of_list_to_set.
    + by rewrite decide_False by by rewrite elem_of_list_to_set.
  - apply (NoDup_fmap_2 (Inj0 := VStr_inj) VStr), NoDup_filter_other, NoDup_dimensions.
  - intros n (k & -> & Hk)%list_elem_of_fmap.
    apply elem_of_filter_other in Hk as [Hk Hne].
    exists k. split_and!; [done | | done].
    by rewrite <- dimensions_observed_keys, elem_of_list_to_set.
Qed.

(** C2, as the code has it: both bar transforms produce one series per
    observed key other than [cols].  Their number is the number of observed
    keys, less one when [cols] is itself an observed key; the series names
    are pairwise distinct, and each is an observed key different from
    [cols]. *)
Theorem bar_series_per_other_key (data : list (Row num)) (cols : string)
    (invertBars showLegend seriesLabelsShow : bool)
    (seriesLabelsPosition : string) (seriesCategoriesShow : bool)
    (numberFormat seriesLabelsFormat colorScheme : string)
    (showTooltip stackSeries : bool)
    (marginTop marginBottom marginRight marginLeft legendOrientation : string) :
  let plain :=
    Bar.buildEchartOptions data cols invertBars showLegend
      seriesLabelsShow seriesLabelsPosition seriesCategoriesShow
      numberFormat seriesLabelsFormat colorScheme showTooltip in
  let stacked :=
    BarStacked.buildEchartOptions data cols invertBars showLegend
      seriesLabelsShow seriesLabelsPosition seriesCategoriesShow
      numberFormat seriesLabelsFormat colorScheme showTooltip stackSeries
      marginTop marginBottom marginRight marginLeft legendOrientation in
  let one_per_other_key (chartOptions : JsValue num) :=
    let names := map (fun s => prop s "name") (series chartOptions) in
    length (series chartOptions)
    + (if decide (cols ∈ observed_keys data) then 1 else 0)
    = size (observed_keys data)
    /\ NoDup names
    /\ forall n, n ∈ names ->
         exists k, n = VStr k /\ k ∈ observed_keys data /\ k <> cols in
  one_per_other_key plain /\ one_per_other_key stacked.
Proof.
  intros plain stacked one_per_other_key. unfold one_per_other_key. split.
  - rewrite <- (length_map (fun s => prop s "name") (series plain)).
    apply series_names_distinct_observed.
    unfold plain. rewrite Bar_series. by apply series_names.
  - rewrite <- (length_map (fun s => prop s "name") (series stacked)).
    apply series_names_distinct_observed.
    unfold stacked. rewrite BarStacked_series. by apply series_names.
Qed.

End BarProperties.

(** C2, as stated: for the single row [{sales: 10}] and [cols = "region"],
    which no row has, there is one observed key and one series, not none. *)
Lemma bar_series_count_counterexample :
  let data : list (Row Z) := [ [("sales", SNum 10%Z)] ] in
  let chartOptions :=
    Bar.buildEchartOptions (host := example_host) data "region" false true true
      "top" true "SMART_NUMBER" "default" "supersetColors" true in
  length (series chartOptions) = 1
  /\ size (observed_keys data) = 1
  /\ length (series chartOptions) <> size (observed_keys data) - 1.
Proof.
  intros data chartOptions.
  assert (Hsize : size (observed_keys data) = 1)
    by (by rewrite <- length_dimensions).
  split; [reflexivity|]. split; [exact Hsize|].
  rewrite Hsize. discriminate.
Qed.

Section Formatters.
Context {num : Type} {NumOps : JsNumber num} {host : Externals num}.

(** C4, as the code has it: for a label type outside the six of the pie
    formatter, the pie label is the category name; for a label format
    outside the three that the bar formatters handle, the bar label is the
    formatted value of the series in the row of the bar, in both bar
    transforms. *)
Theorem label_formatters_default_case :
  (forall (params : PieLabelParams num) (numberFormat labelType : string),
     labelType ∉ ["key"; "value"; "percent"; "key_value"; "key_percent";
                  "key_value_percent"] ->
     Pie.formatPieLabel params numberFormat labelType = pie_name params)
  /\ (forall (params : BarLabelParams num)
        (numberFormat seriesLabelsFormat : string),
        seriesLabelsFormat ∉ ["seriesNameCategoryValue"; "seriesNameValue";
                              "categoryValue"] ->
        let formattedValue :=
          formatNumber numberFormat
            (row_get (bar_value params) (bar_seriesName params)) in
        Bar.labelFormatter numberFormat seriesLabelsFormat params = formattedValue
        /\ BarStacked.labelFormatter numberFormat seriesLabelsFormat params
           = formattedValue).
Proof.
  split.
  - intros params numberFormat labelType Hout. unfold Pie.formatPieLabel.
    repeat (apply not_elem_of_cons in Hout as [Hne Hout];
            apply String.eqb_neq in Hne; rewrite Hne; clear Hne).
    reflexivity.
  - intros params numberFormat seriesLabelsFormat Hout formattedValue.
    unfold Bar.labelFormatter, BarStacked.labelFormatter.
    repeat (apply not_elem_of_cons in Hout as [Hne Hout];
            apply String.eqb_neq in Hne; rewrite Hne; clear Hne).
    split; reflexivity.
Qed.

End Formatters.

(** C4, witness: the label type "donut" and the label format "default". *)
Lemma label_formatters_default_case_witness :
  let pie_params : PieLabelParams Z :=
    {| pie_name := SStr "A"; pie_value := SNum 10%Z; pie_percent := SNum 20%Z |} in
  let bar_params : BarLabelParams Z :=
    {| bar_seriesName := "sales"; bar_name := SStr "A";
       bar_value := [("region", SStr "A"); ("sales", SNum 10%Z)] |} in
  Pie.formatPieLabel (host := example_host) pie_params "SMART_NUMBER" "donut"
  = SStr "A"
  /\ Bar.labelFormatter (host := example_host) "SMART_NUMBER" "default" bar_params
     = "10"
  /\ BarStacked.labelFormatter (host := example_host) "SMART_NUMBER" "default"
       bar_params
     = "10".
Proof.
  intros pie_params bar_params.
  destruct (label_formatters_default_case (host := example_host)) as [Hpie Hbar].
  split.
  - apply (Hpie pie_params "SMART_NUMBER" "donut"). intros Hin.
    repeat (apply elem_of_cons in Hin as [Hin|Hin]; [discriminate Hin|]).
    by apply elem_of_nil in Hin.
  - apply (Hbar bar_params "SMART_NUMBER" "default"). intros Hin.
    repeat (apply elem_of_cons in Hin as [Hin|Hin]; [discriminate Hin|]).
    by apply elem_of_nil in Hin.
Defined.

(** C4, as stated: for the label format "other" the bar formatter returns
    the formatted value "10" of the bar, not the category name "A". *)
Lemma bar_label_default_counterexample :
  let params : BarLabelParams Z :=
    {| bar_seriesName := "sales"; bar_name := SStr "A";
       bar_value := [("region", SStr "A"); ("sales", SNum 10%Z)] |} in
  Bar.labelFormatter (host := example_host) "SMART_NUMBER" "other" params = "10"
  /\ BarStacked.labelFormatter (host := example_host) "SMART_NUMBER" "other" params
     = "10"
  /\ SStr (Bar.labelFormatter (host := example_host) "SMART_NUMBER" "other" params)
     <> bar_name params.
Proof. intros params. split_and!; [reflexivity | reflexivity | discriminate]. Qed.

Section LegendOrientation.
Context {num : Type} {NumOps : JsNumber num}.

(** C5: the legend options depend on [legendOrientation] alone: 'top' gives
    [{orient: 'horizontal', right: 0, top: 0}], 'bottom' gives
    [{orient: 'horizontal', bottom: 0}], 'left' gives
    [{orient: 'vertical', left: 0}], 'right' gives
    [{orient: 'vertical', right: 0, top: 0}], and every other value gives
    what 'right' gives. *)
Theorem legendOrientationBuilder_cases :
  BarStacked.legendOrientationBuilder "top"
  = VObj [("orient", VStr "horizontal"); ("right", VInt 0); ("top", VInt 0)]
  /\ BarStacked.legendOrientationBuilder "bottom"
     = VObj [("orient", VStr "horizontal"); ("bottom", VInt 0)]
  /\ BarStacked.legendOrientationBuilder "left"
     = VObj [("orient", VStr "vertical"); ("left", VInt 0)]
  /\ BarStacked.legendOrientationBuilder "right"
     = VObj [("orient", VStr "vertical"); ("right", VInt 0); ("top", VInt 0)]
  /\ forall legendOrientation : string,
       legendOrientation ∉ ["top"; "bottom"; "left"; "right"] ->
       BarStacked.legendOrientationBuilder legendOrientation
       = BarStacked.legendOrientationBuilder (num := num) "right".
Proof.
  repeat (split; [reflexivity|]).
  intros legendOrientation Hout. unfold BarStacked.legendOrientationBuilder.
  apply not_elem_of_cons in Hout as [Htop Hout].
  apply not_elem_of_cons in Hout as [Hbottom Hout].
  apply not_elem_of_cons in Hout as [Hleft _].
  apply String.eqb_neq in Htop, Hbottom, Hleft.
  simpl existsb. rewrite Htop, Hbottom, Hleft. reflexivity.
Qed.

End LegendOrientation.

(** C5, witness: the orientation "center" is none of the four. *)
Lemma legendOrientationBuilder_cases_witness :
  BarStacked.legendOrientationBuilder (num := Z) "center"
  = VObj [("orient", VStr "vertical"); ("right", VInt 0); ("top", VInt 0)].
Proof.
  destruct (legendOrientationBuilder_cases (num := Z))
    as (_ & _ & _ & Hright & Hother).
  rewrite <- Hright. apply Hother. intros Hin.
  repeat (apply elem_of_cons in Hin as [Hin|Hin]; [discriminate Hin|]).
  by apply elem_of_nil in Hin.
Defined.

Section BarAxes.
Context {num : Type} {NumOps : JsNumber num} {host : Externals num}.

(** C6: with [invertBars] false, both bar transforms make the x axis the
    category axis, [{type: 'category', show: seriesCategoriesShow}], leave
    the y axis empty, and encode in every series x as [cols] and y as the
    dimension of the series; with [invertBars] true the two axes change
    roles.  The [show] flag of the category axis is [seriesCategoriesShow]
    either way. *)
Theorem bar_axis_orientation (data : list (Row num)) (cols : string)
    (showLegend seriesLabelsShow : bool)
    (seriesLabelsPosition : string) (seriesCategoriesShow : bool)
    (numberFormat seriesLabelsFormat colorScheme : string)
    (showTooltip stackSeries : bool)
    (marginTop marginBottom marginRight marginLeft legendOrientation : string) :
  let plain (invertBars : bool) :=
    Bar.buildEchartOptions data cols invertBars showLegend
      seriesLabelsShow seriesLabelsPosition seriesCategoriesShow
      numberFormat seriesLabelsFormat colorScheme showTooltip in
  let stacked (invertBars : bool) :=
    BarStacked.buildEchartOptions data cols invertBars showLegend
      seriesLabelsShow seriesLabelsPosition seriesCategoriesShow
      numberFormat seriesLabelsFormat colorScheme showTooltip stackSeries
      marginTop marginBottom marginRight marginLeft legendOrientation in
  let categories : JsValue num :=
    VObj [("type", VStr "category"); ("show", VBool seriesCategoriesShow)] in
  let x_is_category (chartOptions : JsValue num) :=
    prop chartOptions "xAxis" = categories
    /\ prop chartOptions "yAxis" = VObj []
    /\ Forall
         (fun s =>
            exists dim, dim ∈ observed_keys data /\ dim <> cols
              /\ prop s "name" = VStr dim
              /\ prop s "encode" = VObj [("x", VStr cols); ("y", VStr dim)])
         (series chartOptions) in
  let y_is_category (chartOptions : JsValue num) :=
    prop chartOptions "yAxis" = categories
    /\ prop chartOptions "xAxis" = VObj []
    /\ Forall
         (fun s =>
            exists dim, dim ∈ observed_keys data /\ dim <> cols
              /\ prop s "name" = VStr dim
              /\ prop s "encode" = VObj [("y", VStr cols); ("x", VStr dim)])
         (series chartOptions) in
  x_is_category (plain false) /\ x_is_category (stacked false)
  /\ y_is_category (plain true) /\ y_is_category (stacked true).
Proof.
  intros plain stacked categories x_is_category y_is_category.
  assert (Hdim : forall dim,
            dim ∈ List.filter (fun dim => negb (String.eqb dim cols))
                    (Bar.dimensions data) ->
            dim ∈ observed_keys data /\ dim <> cols).
  { intros dim [Hin Hne]%elem_of_filter_other. split; [|done].
    by rewrite <- dimensions_observed_keys, elem_of_list_to_set. }
  unfold x_is_category, y_is_category, plain, stacked.
  rewrite !Bar_series, !BarStacked_series.
  split_and!; try reflexivity;
    apply Forall_fmap, Forall_forall; intros dim [Hin Hne]%Hdim;
    exists dim; split_and!; try done; by destruct stackSeries.
Qed.

End BarAxes.

Section BarScenario.
Context {host : Externals Z}.

(** C7: for the rows [[{region: "A", sales: 10}, {region: "B", sales: 20}]]
    with [cols = "region"] and [invertBars = false], whatever the other
    options are, the plain bar transform produces the one series 'sales',
    [dataset.source] is the two rows in their order, and the x axis has type
    'category'. *)
Theorem bar_region_sales_scenario
    (showLegend seriesLabelsShow : bool)
    (seriesLabelsPosition : string) (seriesCategoriesShow : bool)
    (numberFormat seriesLabelsFormat colorScheme : string)
    (showTooltip : bool) :
  let data : list (Row Z) :=
    [ [("region", SStr "A"); ("sales", SNum 10%Z)];
      [("region", SStr "B"); ("sales", SNum 20%Z)] ] in
  let chartOptions :=
    Bar.buildEchartOptions data "region" false showLegend
      seriesLabelsShow seriesLabelsPosition seriesCategoriesShow
      numberFormat seriesLabelsFormat colorScheme showTooltip in
  map (fun s => prop s "name") (series chartOptions) = [VStr "sales"]
  /\ prop (prop chartOptions "dataset") "source"
     = VArr [ VObj [("region", VStr "A"); ("sales", VNum 10%Z)];
              VObj [("region", VStr "B"); ("sales", VNum 20%Z)] ]
  /\ prop (prop chartOptions "xAxis") "type" = VStr "category".
Proof. intros data chartOptions. split_and!; reflexivity. Qed.

End BarScenario.

Section BarRefinement.
Context {num : Type} {NumOps : JsNumber num} {host : Externals num}.

(** C10: the transform with stacking refines the plain one.  For the same
    rows and options the two produce the same [dataset] (dimensions and
    source rows), the same [xAxis] and [yAxis], and, with [stackSeries]
    false, the same series; with [stackSeries] true each series of the
    transform with stacking is the series of the plain one with the
    property [stack: 'totals'] added. *)
Theorem bar_stacked_refines_plain (data : list (Row num)) (cols : string)
    (invertBars showLegend seriesLabelsShow : bool)
    (seriesLabelsPosition : string) (seriesCategoriesShow : bool)
    (numberFormat seriesLabelsFormat colorScheme : string)
    (showTooltip : bool)
    (marginTop marginBottom marginRight marginLeft legendOrientation : string) :
  let plain :=
    Bar.buildEchartOptions data cols invertBars showLegend
      seriesLabelsShow seriesLabelsPosition seriesCategoriesShow
      numberFormat seriesLabelsFormat colorScheme showTooltip in
  let stacked (stackSeries : bool) :=
    BarStacked.buildEchartOptions data cols invertBars showLegend
      seriesLabelsShow seriesLabelsPosition seriesCategoriesShow
      numberFormat seriesLabelsFormat colorScheme showTooltip stackSeries
      marginTop marginBottom marginRight marginLeft legendOrientation in
  (forall stackSeries : bool,
     prop (stacked stackSeries) "dataset" = prop plain "dataset"
     /\ prop (stacked stackSeries) "xAxis" = prop plain "xAxis"
     /\ prop (stacked stackSeries) "yAxis" = prop plain "yAxis")
  /\ prop (stacked false) "series" = prop plain "series"
  /\ Forall (fun s => obj_get "stack" (own_props s) = None) (series plain)
  /\ series (stacked true)
     = map (fun s => VObj (own_props s ++ [("stack", VStr "totals")]))
         (series plain).
Proof.
  intros plain stacked. split_and!.
  - intros stackSeries. unfold plain, stacked.
    split_and!; destruct invertBars; reflexivity.
  - assert (Hseries : forall chartOptions : JsValue num,
              prop chartOptions "series" = VArr (series chartOptions) ->
              forall l, series chartOptions = l ->
              prop chartOptions "series" = VArr l) by (by intros ? -> ? <-).
    transitivity (VArr (series plain)); [|reflexivity].
    apply Hseries; [reflexivity|].
    unfold plain, stacked. rewrite Bar_series, BarStacked_series.
    apply map_ext. intros dim. reflexivity.
  - unfold plain. rewrite Bar_series. apply Forall_fmap, Forall_forall.
    intros dim _. reflexivity.
  - unfold plain, stacked. rewrite Bar_series, BarStacked_series, map_map.
    apply map_ext. intros dim. reflexivity.
Qed.

End BarRefinement.

(** ** The transforms on the store *)

Section StoreRuns.
Import Store.
Context {num : Type} {NumOps : JsNumber num}.
Implicit Types (h t : Heap (num := num)) (rows : list (Row num)).

Lemma run_bind {A B : Type} (m : M A) (f : A -> M B) h x h' :
  m h = Some (x, h') -> (m ≫= f) h = f x h'.
Proof. intros Hm. unfold mbind, M_bind. by rewrite Hm. Qed.

Lemma lookup_snoc_cell h (c : Cell) t : (h ++ c :: t) !! length h = Some c.
Proof. apply list_lookup_middle. done. Qed.

Lemma lookup_snoc2_cell h (c0 c1 : Cell) t :
  (h ++ c0 :: c1 :: t) !! S (length h) = Some c1.
Proof.
  rewrite (cons_middle c0), app_assoc.
  apply list_lookup_middle. rewrite length_app. simpl. lia.
Qed.

Lemma read_row_app h t r d :
  read_row h r = Some d -> read_row (h ++ t) r = Some d.
Proof.
  destruct r as [| | | |l]; simpl; try done.
  destruct (h !! l) as [c|] eqn:Hl; [|done].
  by rewrite (lookup_app_l_Some _ _ _ _ Hl).
Qed.

Lemma mapM_read_row_app h t refs rows :
  mapM (read_row h) refs = Some rows -> mapM (read_row (h ++ t)) refs = Some rows.
Proof.
  rewrite !mapM_Some. intros Hall. eapply Forall2_impl; [exact Hall|].
  intros r d. apply read_row_app.
Qed.

Lemma read_rows_app h t data rows :
  read_rows h data = Some rows -> read_rows (h ++ t) data = Some rows.
Proof.
  destruct data as [| | | |a]; simpl; try done.
  destruct (h !! a) as [c|] eqn:Ha; [|done].
  rewrite (lookup_app_l_Some _ _ _ _ Ha).
  destruct c; try done. apply mapM_read_row_app.
Qed.

(** [data] is an array of references to rows. *)
Lemma read_rows_inv h data rows :
  read_rows h data = Some rows ->
  exists a refs, data = VRef a /\ h !! a = Some (CArray refs)
                 /\ mapM (read_row h) refs = Some rows.
Proof.
  destruct data as [| | | |a]; simpl; try done.
  destruct (h !! a) as [[| refs |]|] eqn:Ha; try done.
  intros Hrows. by exists a, refs.
Qed.

Lemma run_Object_keysM h r d :
  read_row h r = Some d -> Object_keysM r h = Some (Object_keys d, h).
Proof.
  destruct r as [| | | |l]; simpl; try done.
  unfold Object_keysM, deref, mbind, M_bind.
  destruct (h !! l) as [[| |]|]; try done. by intros [= ->].
Qed.

Lemma run_getM h r d k :
  read_row h r = Some d -> getM r k h = Some (row_get d k, h).
Proof.
  destruct r as [| | | |l]; simpl; try done.
  unfold getM, deref, mbind, M_bind.
  destruct (h !! l) as [[| |]|]; try done. by intros [= ->].
Qed.

Lemma run_mapM_Object_keysM h refs rows :
  mapM (read_row h) refs = Some rows ->
  mapM Object_keysM refs h = Some (map Object_keys rows, h).
Proof.
  rewrite mapM_Some. induction 1 as [|r d refs rows Hr _ IH]; [done|].
  simpl. rewrite (run_bind _ _ _ _ _ (run_Object_keysM _ _ _ Hr)).
  by rewrite (run_bind _ _ _ _ _ IH).
Qed.

Lemma run_Array_elems h a xs :
  h !! a = Some (CArray xs) -> Array_elems (VRef a) h = Some (xs, h).
Proof. intros Ha. unfold Array_elems, deref, mbind, M_bind. by rewrite Ha. Qed.

Lemma run_Set_elems h a s :
  h !! a = Some (CSet s) -> Set_elems (VRef a) h = Some (s, h).
Proof. intros Ha. unfold Set_elems, deref, mbind, M_bind. by rewrite Ha. Qed.

Lemma run_Array_mapM_keys h data rows :
  read_rows h data = Some rows ->
  Array_mapM data Object_keysM h = Some (map Object_keys rows, h).
Proof.
  intros (a & refs & -> & Ha & Hrows)%read_rows_inv. unfold Array_mapM.
  rewrite (run_bind _ _ _ _ _ (run_Array_elems _ _ _ Ha)).
  by apply run_mapM_Object_keysM.
Qed.

(** Overwriting the cell at [length h]. *)
Lemma run_assign h (c c' : Cell) t :
  assign (VRef (length h)) c' (h ++ c :: t) = Some (tt, h ++ c' :: t).
Proof.
  unfold assign. rewrite decide_True by (rewrite length_app; simpl; lia).
  unfold Heap in *. rewrite insert_app_r_alt by done. by rewrite Nat.sub_diag.
Qed.

Lemma run_Set_addM h s k t :
  Set_addM (VRef (length h)) k (h ++ CSet s :: t)
  = Some (tt, h ++ CSet (Set_add s k) :: t).
Proof.
  unfold Set_addM.
  rewrite (run_bind (deref _) _ _ (CSet s) (h ++ CSet s :: t)).
  - apply run_assign.
  - unfold deref. by rewrite lookup_snoc_cell.
Qed.

Lemma run_Array_pushM h xs x t :
  Array_pushM (VRef (length h)) x (h ++ CArray xs :: t)
  = Some (tt, h ++ CArray (xs ++ [x]) :: t).
Proof.
  unfold Array_pushM.
  rewrite (run_bind (deref _) _ _ (CArray xs) (h ++ CArray xs :: t)).
  - apply run_assign.
  - unfold deref. by rewrite lookup_snoc_cell.
Qed.

(** A loop whose body updates the one cell at [length h]. *)
Lemma run_forEachM_cell {A S : Type} (cell : S -> Cell) (step : S -> A -> S)
    (body : A -> M unit) h t (xs : list A) :
  (forall s x, body x (h ++ cell s :: t) = Some (tt, h ++ cell (step s x) :: t)) ->
  forall s,
    forEachM xs body (h ++ cell s :: t)
    = Some (tt, h ++ cell (forEach xs step s) :: t).
Proof.
  intros Hbody. induction xs as [|x xs IH]; intros s; [done|].
  simpl. rewrite (run_bind _ _ _ _ _ (Hbody s x)). apply IH.
Qed.


Lemma run_forEachM_rows {A B S : Type} (R : A -> B -> Prop) (cell : S -> Cell)
    (step : S -> B -> S) (body : A -> M unit) h t :
  (forall s x y, R x y ->
     body x (h ++ cell s :: t) = Some (tt, h ++ cell (step s y) :: t)) ->
  forall xs ys, Forall2 R xs ys ->
  forall s,
    forEachM xs body (h ++ cell s :: t)
    = Some (tt, h ++ cell (forEach ys step s) :: t).
Proof.
  intros Hbody xs ys. induction 1 as [|x y xs ys Hxy _ IH]; intros s; [done|].
  simpl. rewrite (run_bind _ _ _ _ _ (Hbody s x y Hxy)). apply IH.
Qed.

Lemma run_alloc h (c : Cell) : alloc c h = Some (VRef (length h), h ++ [c]).
Proof. reflexivity. Qed.

(** The loop that collects the keys into the set at [length h]. *)
Lemma run_collect_keys h (keys : list (list string)) (s : JsSet) t :
  forEachM keys (fun el => forEachM el (fun k => Set_addM (VRef (length h)) k))
    (h ++ CSet s :: t)
  = Some (tt,
          h ++ CSet (forEach keys
                       (fun s el => forEach el (fun s k => Set_add s k) s) s) :: t).
Proof.
  revert s. apply (run_forEachM_cell CSet). intros s el. revert s.
  apply (run_forEachM_cell CSet). intros s k. apply run_Set_addM.
Qed.

(** The loop that pushes, guarded, one value per item into the array at
    [length h]. *)
Lemma run_push_if {A : Type} (p : A -> bool) (f : A -> JsValue num) h t
    (xs : list A) (acc : list (JsValue num)) :
  forEachM xs
    (fun x => if p x then Array_pushM (VRef (length h)) (f x) else mret tt)
    (h ++ CArray acc :: t)
  = Some (tt,
          h ++ CArray (forEach xs (fun acc x => if p x then acc ++ [f x] else acc) acc)
            :: t).
Proof.
  revert acc. apply (run_forEachM_cell CArray). intros acc x.
  destruct (p x); [apply run_Array_pushM | reflexivity].
Qed.

End StoreRuns.

Section PieStoreRuns.
Import Store.
Context {num : Type} {NumOps : JsNumber num} {host : Externals num}.
Implicit Types (h t : Heap (num := num)) (rows : list (Row num)).

Lemma run_transformSeriesData h data rows :
  read_rows h data = Some rows ->
  PieStore.transformSeriesData data h
  = Some (VRef (S (length h)),
          h ++ [CSet (Pie.keysSets rows); CArray (Pie.transformSeriesData rows)]).
Proof.
  intros Hrows. unfold PieStore.transformSeriesData.
  rewrite (run_bind _ _ _ _ _ (run_Array_mapM_keys _ _ _ Hrows)).
  rewrite (run_bind _ _ _ _ _ (run_alloc h (CSet []))).
  rewrite (run_bind _ _ _ _ _ (run_collect_keys h _ _ [])).
  fold (Pie.keysSets rows).
  set (h1 := h ++ [CSet (Pie.keysSets rows)]).
  rewrite (run_bind _ _ _ _ _ (run_alloc h1 (CArray []))).
  apply read_rows_inv in Hrows as (a & refs & -> & Ha & Hrefs).
  assert (Hloop :
    Array_forEachM (VRef a)
      (fun d =>
         Set_forEachM (VRef (length h))
           (fun k =>
              v ← getM d k;
              Array_pushM (VRef (length h1))
                (object [ "name" ::= VStr k; "value" ::= VData v ])))
      (h1 ++ [CArray []])
    = Some (tt, h1 ++ [CArray (Pie.transformSeriesData rows)])).
  { unfold Array_forEachM.
    rewrite (run_bind _ _ _ _ _ (run_Array_elems (h1 ++ [CArray []]) a refs
               (lookup_app_l_Some _ _ _ _ (lookup_app_l_Some _ _ _ _ Ha)))).
    apply (run_forEachM_rows (fun r d => read_row h r = Some d) CArray
             (fun acc d =>
                forEach (Pie.keysSets rows)
                  (fun acc k => acc ++ [Pie.nameValue k (row_get d k)]) acc));
      [|by apply mapM_Some].
    intros acc r d Hr. unfold Set_forEachM.
    rewrite (run_bind _ _ _ _ _ (run_Set_elems (h1 ++ [CArray acc]) (length h)
               (Pie.keysSets rows)
               (lookup_app_l_Some _ _ _ _ (lookup_snoc_cell h _ [])))).
    revert acc. apply (run_forEachM_cell CArray). intros acc k.
    rewrite (run_bind _ _ _ _ _ (run_getM (h1 ++ [CArray acc]) r d k
               (read_row_app _ _ _ _ (read_row_app _ _ _ _ Hr)))).
    apply run_Array_pushM. }
  rewrite (run_bind _ _ _ _ _ Hloop).
  unfold mret, M_ret, h1. rewrite length_app, <- app_assoc. simpl.
  by rewrite Nat.add_1_r.
Qed.

End PieStoreRuns.

Section Reify.
Import Store.
Context {num : Type} {NumOps : JsNumber num} {host : Externals num}.
Implicit Types (h t : Heap (num := num)) (rows : list (Row num)).

#[local] Arguments reify : simpl never.

Lemma reify_VData (n : nat) h (s : Scalar num) : reify n h (VData s) = VData s.
Proof. by destruct n. Qed.

Lemma reify_VFun (n : nat) h (c : Callback num) : reify n h (VFun c) = VFun c.
Proof. by destruct n. Qed.

Lemma reify_VArr (n : nat) h (xs : list (JsValue num)) :
  reify n h (VArr xs) = VArr (map (reify n h) xs).
Proof. by destruct n. Qed.

Lemma reify_VObj (n : nat) h (fields : list (string * JsValue num)) :
  reify n h (VObj fields) = VObj (map (fun kv => (kv.1, reify n h kv.2)) fields).
Proof. by destruct n. Qed.

Lemma reify_VRef (n : nat) h (l : nat) :
  reify (S n) h (VRef l)
  = match h !! l with
    | Some (CRow d) => row_value d
    | Some (CArray xs) => VArr (map (reify n h) xs)
    | Some (CSet _) | None => VRef l
    end.
Proof. reflexivity. Qed.

Lemma reify_map_VStr (n : nat) h (l : list string) :
  map (reify n h) (map VStr l) = map VStr l.
Proof. rewrite map_map. apply map_ext. intros s. apply reify_VData. Qed.

Lemma reify_map_VData_SStr (n : nat) h (l : list string) :
  map (reify n h) (map (fun s => VData (SStr s)) l) = map (fun s => VData (SStr s)) l.
Proof. apply reify_map_VStr. Qed.

Lemma reify_row_refs (n : nat) h refs rows :
  mapM (read_row h) refs = Some rows ->
  map (reify (S n) h) refs = map row_value rows.
Proof.
  rewrite mapM_Some. induction 1 as [|r d refs rows Hr _ IH]; [done|].
  rewrite !map_cons, IH. f_equal.
  destruct r as [| | | |l]; simpl in Hr; try done.
  rewrite reify_VRef. destruct (h !! l) as [[| |]|]; try done. by injection Hr as ->.
Qed.

Lemma reify_data (n : nat) h data rows :
  read_rows h data = Some rows -> reify (S (S n)) h data = rows_value rows.
Proof.
  intros (a & refs & -> & Ha & Hrefs)%read_rows_inv.
  rewrite reify_VRef, Ha. unfold rows_value. f_equal. by apply reify_row_refs.
Qed.

Lemma map_fixed {A : Type} (f : A -> A) (l : list A) :
  Forall (fun x => f x = x) l -> map f l = l.
Proof. induction 1 as [|x l Hx _ IH]; simpl; [done | by rewrite Hx, IH]. Qed.

Lemma reify_transformSeriesData (n : nat) h rows :
  map (reify n h) (Pie.transformSeriesData rows) = Pie.transformSeriesData rows.
Proof.
  apply map_fixed. rewrite transformSeriesData_flat_map.
  apply Forall_forall. intros v Hv. apply list_elem_of_In, in_flat_map in Hv.
  destruct Hv as (d & _ & Hv). apply in_map_iff in Hv as (k & <- & _).
  unfold Pie.nameValue, object. simpl. rewrite reify_VObj. simpl.
  unfold VStr. by rewrite !reify_VData.
Qed.

Ltac reify_literal :=
  unfold object, VStr, VBool, VInt, VNum, VNull; simpl;
  repeat (first [ rewrite reify_VObj | rewrite reify_VArr | rewrite reify_VData
                | rewrite reify_VFun | rewrite reify_map_VData_SStr ];
          cbn [map fst snd]).

Lemma run_buildPieChart h (data : JsValue num) rows
    (chartTitle chartSubTitle : string) (showLegend showTitle : bool)
    (outerRadius innerRadius : num) (donut : bool)
    (numberFormat colorScheme : string)
    (showLabels labelsOutside labelLine : bool) (labelPosition : string)
    (showTooltip highlight : bool)
    (labelType legendVertical legendHorizontal legendOrientation : string)
    (marginTop marginBottom marginRight marginLeft : string) :
  read_rows h data = Some rows ->
  exists (chartOptions : JsValue num) (t : Heap),
    PieStore.buildPieChart data chartTitle chartSubTitle showLegend showTitle
      outerRadius innerRadius donut numberFormat colorScheme showLabels
      labelsOutside labelLine labelPosition showTooltip highlight labelType
      legendVertical legendHorizontal legendOrientation
      marginTop marginBottom marginRight marginLeft h
    = Some (chartOptions, h ++ t)
    /\ forall t', 
         reify 2 (h ++ t ++ t') chartOptions
         = Pie.buildPieChart rows chartTitle chartSubTitle showLegend showTitle
             outerRadius innerRadius donut numberFormat colorScheme showLabels
             labelsOutside labelLine labelPosition showTooltip highlight labelType
             legendVertical legendHorizontal legendOrientation
             marginTop marginBottom marginRight marginLeft.
Proof.
  intros Hrows. unfold PieStore.buildPieChart.
  rewrite (run_bind _ _ _ _ _ (run_transformSeriesData _ _ _ Hrows)).
  eexists _, _. split; [reflexivity|]. intros t'. simpl app.
  unfold Pie.buildPieChart. cbv zeta.
  set (radius := if donut then _ else _).
  assert (Hradius : forall n H, reify n H radius = radius)
    by (intros; unfold radius; destruct donut; reify_literal; reflexivity).
  set (line := if labelsOutside && labelLine then _ else _).
  assert (Hline : forall n H, reify n H line = line)
    by (intros; unfold line; destruct (labelsOutside && labelLine);
        reify_literal; reflexivity).
  set (label := if labelsOutside then _ else _).
  assert (Hlabel : forall n H, reify n H label = label)
    by (intros; unfold label; destruct labelsOutside; reify_literal; reflexivity).
  clearbody radius line label.
  reify_literal.
  rewrite Hradius, Hline, Hlabel, reify_VRef. unfold Heap.
  rewrite lookup_snoc2_cell, reify_transformSeriesData. reflexivity.
Qed.

Lemma reify_pushed (n : nat) h {A : Type} (p : A -> bool) (f : A -> JsValue num)
    (xs : list A) :
  (forall x, reify n h (f x) = f x) ->
  map (reify n h)
    (forEach xs (fun acc x => if p x then acc ++ [f x] else acc) [])
  = forEach xs (fun acc x => if p x then acc ++ [f x] else acc) [].
Proof.
  intros Hf. rewrite forEach_push_if. simpl. rewrite map_map.
  apply map_ext. intros x. apply Hf.
Qed.

Lemma run_Bar_buildEchartOptions h (data : JsValue num) rows (cols : string)
    (invertBars showLegend seriesLabelsShow : bool)
    (seriesLabelsPosition : string) (seriesCategoriesShow : bool)
    (numberFormat seriesLabelsFormat colorScheme : string)
    (showTooltip : bool) :
  read_rows h data = Some rows ->
  exists (chartOptions : JsValue num) (t : Heap),
    BarStore.buildEchartOptions data cols invertBars showLegend
      seriesLabelsShow seriesLabelsPosition seriesCategoriesShow
      numberFormat seriesLabelsFormat colorScheme showTooltip h
    = Some (chartOptions, h ++ t)
    /\ forall t',
         reify 2 (h ++ t ++ t') chartOptions
         = Bar.buildEchartOptions rows cols invertBars showLegend
             seriesLabelsShow seriesLabelsPosition seriesCategoriesShow
             numberFormat seriesLabelsFormat colorScheme showTooltip.
Proof.
  intros Hrows. unfold BarStore.buildEchartOptions. cbv zeta.
  rewrite (run_bind _ _ _ _ _ (run_Array_mapM_keys _ _ _ Hrows)).
  rewrite (run_bind _ _ _ _ _ (run_alloc h (CSet []))).
  rewrite (run_bind _ _ _ _ _ (run_collect_keys h _ _ [])).
  fold (Bar.dimensions rows).
  unfold Array_fromM.
  rewrite (run_bind _ _ _ _ _ (run_Set_elems _ _ _ (lookup_snoc_cell h _ []))).
  set (h1 := h ++ [CSet (Bar.dimensions rows)]).
  rewrite (run_bind _ _ _ _ _ (run_alloc h1 (CArray []))).
  erewrite run_bind; [|apply (run_push_if _ _ h1 [])].
  unfold mret, M_ret, h1. rewrite length_app, <- app_assoc. simpl length. simpl app.
  rewrite Nat.add_1_r.
  eexists _, _. split; [reflexivity|]. intros t'. simpl app.
  unfold Bar.buildEchartOptions. cbv zeta.
  unfold Bar.dimensions, Array_from, new_Set.
  set (dims := forEach (map Object_keys rows) _ _).
  set (ser := forEach dims _ _).
  assert (Hser : forall H, map (reify 1 H) ser = ser).
  { intros H. apply reify_pushed. intros dim.
    destruct invertBars; reify_literal; reflexivity. }
  clearbody ser dims.
  destruct invertBars; reify_literal;
    rewrite reify_VRef; unfold Heap; rewrite lookup_snoc2_cell, Hser;
    rewrite (reify_data 0 _ data rows) by (by apply read_rows_app);
    reflexivity.
Qed.


Lemma run_BarStacked_buildEchartOptions h (data : JsValue num) rows (cols : string)
    (invertBars showLegend seriesLabelsShow : bool)
    (seriesLabelsPosition : string) (seriesCategoriesShow : bool)
    (numberFormat seriesLabelsFormat colorScheme : string)
    (showTooltip stackSeries : bool)
    (marginTop marginBottom marginRight marginLeft legendOrientation : string) :
  read_rows h data = Some rows ->
  exists (chartOptions : JsValue num) (t : Heap),
    BarStackedStore.buildEchartOptions data cols invertBars showLegend
      seriesLabelsShow seriesLabelsPosition seriesCategoriesShow
      numberFormat seriesLabelsFormat colorScheme showTooltip stackSeries
      marginTop marginBottom marginRight marginLeft legendOrientation h
    = Some (chartOptions, h ++ t)
    /\ forall t',
         reify 2 (h ++ t ++ t') chartOptions
         = BarStacked.buildEchartOptions rows cols invertBars showLegend
             seriesLabelsShow seriesLabelsPosition seriesCategoriesShow
             numberFormat seriesLabelsFormat colorScheme showTooltip stackSeries
             marginTop marginBottom marginRight marginLeft legendOrientation.
Proof.
  intros Hrows. unfold BarStackedStore.buildEchartOptions. cbv zeta.
  rewrite (run_bind _ _ _ _ _ (run_Array_mapM_keys _ _ _ Hrows)).
  rewrite (run_bind _ _ _ _ _ (run_alloc h (CSet []))).
  rewrite (run_bind _ _ _ _ _ (run_collect_keys h _ _ [])).
  unfold Array_fromM.
  rewrite (run_bind _ _ _ _ _ (run_Set_elems _ _ _ (lookup_snoc_cell h _ []))).
  set (dims := forEach (map Object_keys rows) _ _).
  set (h1 := h ++ [CSet dims]).
  rewrite (run_bind _ _ _ _ _ (run_alloc h1 (CArray []))).
  erewrite run_bind; [|apply (run_push_if _ _ h1 [])].
  unfold mret, M_ret, h1. rewrite length_app, <- app_assoc. simpl length. simpl app.
  rewrite Nat.add_1_r.
  eexists _, _. split; [reflexivity|]. intros t'. simpl app.
  unfold BarStacked.buildEchartOptions. cbv zeta.
  unfold BarStacked.dimensions, Array_from, new_Set. fold dims.
  set (ser := forEach dims _ _).
  assert (Hser : forall H, map (reify 1 H) ser = ser).
  { intros H. apply reify_pushed. intros dim.
    destruct invertBars, stackSeries; reify_literal; reflexivity. }
  set (yAxis := if invertBars then _ else _).
  assert (HyAxis : forall n H,
            reify n H (object [Spread yAxis]) = object [Spread yAxis])
    by (intros; unfold yAxis; destruct invertBars; reify_literal; reflexivity).
  set (xAxis := if negb invertBars then _ else _).
  assert (HxAxis : forall n H,
            reify n H (object [Spread xAxis]) = object [Spread xAxis])
    by (intros; unfold xAxis; destruct invertBars; reify_literal; reflexivity).
  set (legend := object [ "show" ::= VBool showLegend; Spread _ ]).
  assert (Hlegend : forall n H, reify n H legend = legend).
  { intros. unfold legend, BarStacked.legendOrientationBuilder. simpl existsb.
    destruct (legendOrientation =? "top"), (legendOrientation =? "bottom"),
      (legendOrientation =? "left"); reify_literal; reflexivity. }
  set (yAxisObject := object [Spread yAxis]) in *.
  set (xAxisObject := object [Spread xAxis]) in *.
  clearbody ser dims yAxisObject xAxisObject legend.
  reify_literal.
  rewrite HyAxis, HxAxis, Hlegend, reify_VRef. unfold Heap.
  rewrite lookup_snoc2_cell, Hser.
  rewrite (reify_data 0 _ data rows) by (by apply read_rows_app).
  reflexivity.
Qed.

End Reify.

Section StoreProperties.
Import Store.
Context {num : Type} {NumOps : JsNumber num}.

Lemma computes_deterministic (run : JsValue num -> M (JsValue num))
    (model : list (Row num) -> JsValue num) :
  computes run model -> deterministic run.
Proof.
  intros Hrun h1 h2 data1 data2 rows Hrows1 Hrows2.
  destruct (Hrun h1 data1 rows Hrows1) as (s1 & t1 & Hrun1 & Hs1).
  destruct (Hrun h2 data2 rows Hrows2) as (s2 & t2 & Hrun2 & Hs2).
  exists s1, s2, (h1 ++ t1), (h2 ++ t2). split_and!; [done | done |].
  specialize (Hs1 []). specialize (Hs2 []). rewrite app_nil_r in Hs1, Hs2.
  congruence.
Qed.

Lemma computes_preserves_store (run : JsValue num -> M (JsValue num))
    (model : list (Row num) -> JsValue num) :
  computes run model -> preserves_store run.
Proof.
  intros Hrun h data rows Hrows.
  destruct (Hrun h data rows Hrows) as (s & t & Hrun1 & _).
  exists s, (h ++ t). split_and!; [done | | by apply read_rows_app].
  intros l c. unfold Heap in *. apply lookup_app_l_Some.
Qed.

Lemma computes_repeatable (run : JsValue num -> M (JsValue num))
    (model : list (Row num) -> JsValue num) :
  computes run model -> repeatable run.
Proof.
  intros Hrun h data rows Hrows.
  destruct (Hrun h data rows Hrows) as (s1 & t1 & Hrun1 & Hs1).
  destruct (Hrun (h ++ t1) data rows (read_rows_app _ t1 _ _ Hrows))
    as (s2 & t2 & Hrun2 & Hs2).
  exists s1, s2, (h ++ t1), ((h ++ t1) ++ t2). split_and!; [done | done | |].
  - specialize (Hs1 []). specialize (Hs2 []). rewrite app_nil_r in Hs1, Hs2.
    congruence.
  - specialize (Hs1 t2). specialize (Hs2 []).
    rewrite app_nil_r in Hs2. rewrite app_assoc in Hs1. congruence.
Qed.

End StoreProperties.

Section Determinism.
Import Store.
Context {num : Type} {NumOps : JsNumber num} {host : Externals num}.

(** C9: with the same colour scale and number formatter, the pie transform
    and both bar transforms are deterministic and leave the store alone.
    On a store in which [data] denotes the rows, each returns chart options
    that denote what the transform on values gives for the rows and the
    options; so two invocations on the same rows and options return chart
    options that denote the same value; an invocation changes no object that
    was in the store, so [data] denotes the same rows after it; and a later
    invocation returns chart options that denote what those of the earlier
    one do, then and still.  Callbacks are the same when they are the same
    function of their parameters. *)
Theorem transforms_deterministic :
  let well_behaved (run : JsValue num -> M (JsValue num))
      (model : list (Row num) -> JsValue num) :=
    computes run model /\ deterministic run /\ preserves_store run
    /\ repeatable run in
  (forall (chartTitle chartSubTitle : string) (showLegend showTitle : bool)
     (outerRadius innerRadius : num) (donut : bool)
     (numberFormat colorScheme : string)
     (showLabels labelsOutside labelLine : bool) (labelPosition : string)
     (showTooltip highlight : bool)
     (labelType legendVertical legendHorizontal legendOrientation : string)
     (marginTop marginBottom marginRight marginLeft : string),
     well_behaved
       (fun data =>
          PieStore.buildPieChart data chartTitle chartSubTitle showLegend
            showTitle outerRadius innerRadius donut numberFormat colorScheme
            showLabels labelsOutside labelLine labelPosition showTooltip
            highlight labelType legendVertical legendHorizontal
            legendOrientation marginTop marginBottom marginRight marginLeft)
       (fun rows =>
          Pie.buildPieChart rows chartTitle chartSubTitle showLegend
            showTitle outerRadius innerRadius donut numberFormat colorScheme
            showLabels labelsOutside labelLine labelPosition showTooltip
            highlight labelType legendVertical legendHorizontal
            legendOrientation marginTop marginBottom marginRight marginLeft))
  /\ (forall (cols : string) (invertBars showLegend seriesLabelsShow : bool)
        (seriesLabelsPosition : string) (seriesCategoriesShow : bool)
        (numberFormat seriesLabelsFormat colorScheme : string)
        (showTooltip : bool),
        well_behaved
          (fun data =>
             BarStore.buildEchartOptions data cols invertBars showLegend
               seriesLabelsShow seriesLabelsPosition seriesCategoriesShow
               numberFormat seriesLabelsFormat colorScheme showTooltip)
          (fun rows =>
             Bar.buildEchartOptions rows cols invertBars showLegend
               seriesLabelsShow seriesLabelsPosition seriesCategoriesShow
               numberFormat seriesLabelsFormat colorScheme showTooltip))
  /\ (forall (cols : string) (invertBars showLegend seriesLabelsShow : bool)
        (seriesLabelsPosition : string) (seriesCategoriesShow : bool)
        (numberFormat seriesLabelsFormat colorScheme : string)
        (showTooltip stackSeries : bool)
        (marginTop marginBottom marginRight marginLeft legendOrientation : string),
        well_behaved
          (fun data =>
             BarStackedStore.buildEchartOptions data cols invertBars showLegend
               seriesLabelsShow seriesLabelsPosition seriesCategoriesShow
               numberFormat seriesLabelsFormat colorScheme showTooltip
               stackSeries marginTop marginBottom marginRight marginLeft
               legendOrientation)
          (fun rows =>
             BarStacked.buildEchartOptions rows cols invertBars showLegend
               seriesLabelsShow seriesLabelsPosition seriesCategoriesShow
               numberFormat seriesLabelsFormat colorScheme showTooltip
               stackSeries marginTop marginBottom marginRight marginLeft
               legendOrientation)).
Proof.
  intros well_behaved.
  assert (Hwell : forall run model, computes run model -> well_behaved run model).
  { intros run model Hrun. split_and!.
    - exact Hrun.
    - by eapply computes_deterministic.
    - by eapply computes_preserves_store.
    - by eapply computes_repeatable. }
  split_and!; intros; apply Hwell; intros h data rows Hrows.
  - by apply run_buildPieChart.
  - by apply run_Bar_buildEchartOptions.
  - by apply run_BarStacked_buildEchartOptions.
Qed.

End Determinism.

(** C9, witness: the plain bar transform, invoked twice on the store of the
    two region and sales rows. *)
Lemma transforms_deterministic_witness :
  Store.read_rows region_sales_store (VRef 2) = Some region_sales_rows
  /\ exists (chartOptions1 chartOptions2 : JsValue Z) (h1 h2 : Store.Heap),
       BarStore.buildEchartOptions (host := example_host) (VRef 2) "region"
         false true true "top" true "SMART_NUMBER" "default" "supersetColors"
         true region_sales_store
       = Some (chartOptions1, h1)
       /\ BarStore.buildEchartOptions (host := example_host) (VRef 2) "region"
            false true true "top" true "SMART_NUMBER" "default" "supersetColors"
            true h1
          = Some (chartOptions2, h2)
       /\ Store.reify 2 h1 chartOptions1 = Store.reify 2 h2 chartOptions2
       /\ Store.reify 2 h2 chartOptions1 = Store.reify 2 h2 chartOptions2.
Proof.
  split; [reflexivity|].
  destruct (transforms_deterministic (host := example_host))
    as (_ & Hbar & _).
  destruct (Hbar "region" false true true "top" true "SMART_NUMBER" "default"
              "supersetColors" true) as (_ & _ & _ & Hrepeat).
  apply (Hrepeat region_sales_store (VRef 2) region_sales_rows).
  reflexivity.
Defined.

(** * Further properties of the plugins *)

(** ** More on the dimensions *)

Lemma Set_add_prefix (s : JsSet) (k : string) : s `prefix_of` Set_add s k.
Proof.
  unfold Set_add. destruct (Set_has s k); [done|]. by apply prefix_app_r.
Qed.

Lemma forEach_add_prefix (el : list string) (s : JsSet) :
  s `prefix_of` forEach el (fun s k => Set_add s k) s.
Proof.
  unfold forEach. revert s. induction el as [|k el IH]; intros s; simpl; [done|].
  etrans; [apply Set_add_prefix | apply IH].
Qed.

Lemma forEach_keys_prefix (keys : list (list string)) (s : JsSet) :
  s `prefix_of` forEach keys (fun s el => forEach el (fun s k => Set_add s k) s) s.
Proof.
  unfold forEach at 1. revert s. induction keys as [|el keys IH]; intros s; simpl;
    [done|].
  etrans; [apply forEach_add_prefix | apply IH].
Qed.

Lemma forEach_app {A S : Type} (xs ys : list A) (body : S -> A -> S) (init : S) :
  forEach (xs ++ ys) body init = forEach ys body (forEach xs body init).
Proof. apply fold_left_app. Qed.

Section MoreDimensions.
Context {num : Type}.

Lemma dimensions_app_prefix (data more : list (Row num)) :
  Bar.dimensions data `prefix_of` Bar.dimensions (data ++ more).
Proof.
  unfold Bar.dimensions, Array_from. rewrite map_app, forEach_app.
  apply forEach_keys_prefix.
Qed.

(** Adding keys that the set has changes nothing. *)
Lemma forEach_add_same (el : list string) (s : JsSet) :
  (forall k, k ∈ el -> k ∈ s) -> forEach el (fun s k => Set_add s k) s = s.
Proof.
  unfold forEach. induction el as [|k el IH]; intros Hin; simpl; [done|].
  assert (Hk : Set_add s k = s).
  { unfold Set_add. rewrite (proj2 (Set_has_spec s k)); [done|].
    apply Hin, list_elem_of_here. }
  rewrite Hk. apply IH. intros k' Hk'. by apply Hin, list_elem_of_further.
Qed.

(** Adding distinct keys to the empty set lists them. *)
Lemma forEach_add_fresh (el : list string) (s : JsSet) :
  NoDup (s ++ el) -> forEach el (fun s k => Set_add s k) s = s ++ el.
Proof.
  unfold forEach. revert s. induction el as [|k el IH]; intros s Hnd; simpl.
  - by rewrite app_nil_r.
  - assert (Hk : Set_add s k = s ++ [k]).
    { unfold Set_add. destruct (Set_has s k) eqn:Hhas; [|done].
      apply Set_has_spec in Hhas. apply NoDup_app in Hnd as (_ & Hdisj & _).
      destruct (Hdisj k Hhas). apply list_elem_of_here. }
    rewrite Hk, IH; rewrite <- app_assoc; done.
Qed.

End MoreDimensions.

Lemma prefix_map_filter {A B : Type} (f : A -> B) (p : A -> bool) (l1 l2 : list A) :
  l1 `prefix_of` l2 -> map f (List.filter p l1) `prefix_of` map f (List.filter p l2).
Proof.
  intros [k ->]. rewrite List.filter_app, map_app. by apply prefix_app_r.
Qed.

Lemma length_filter_flat_map {A B : Type} (p : B -> bool) (f : A -> list B)
    (n : nat) (xs : list A) :
  (forall x, length (List.filter p (f x)) = n) ->
  length (List.filter p (flat_map f xs)) = length xs * n.
Proof.
  intros Hf. induction xs as [|x xs IH]; simpl; [done|].
  rewrite List.filter_app, length_app, Hf, IH. lia.
Qed.

Lemma length_filter_eqb (k : string) (l : list string) :
  NoDup l ->
  length (List.filter (String.eqb k) l) = if decide (k ∈ l) then 1 else 0.
Proof.
  induction 1 as [|x l Hx Hnd IH]; simpl; [done|].
  destruct (String.eqb_spec k x) as [->|Hne]; simpl.
  - rewrite IH. rewrite decide_False by done.
    by rewrite decide_True by apply list_elem_of_here.
  - rewrite IH. destruct (decide (k ∈ l)) as [Hin|Hout].
    + by rewrite decide_True by by apply list_elem_of_further.
    + rewrite decide_False; [done|]. intros [->|?]%elem_of_cons; done.
Qed.

Section MoreOnRows.
Context {num : Type} {NumOps : JsNumber num}.


End MoreOnRows.

Section MorePie.
Context {num : Type} {NumOps : JsNumber num} {host : Externals num}.

(** X1: the pie series data is empty exactly when no row has a key: for no
    rows, and for rows that are all empty objects. *)
Theorem pie_series_data_empty (data : list (Row num)) :
  Pie.transformSeriesData data = [] <-> forall d, d ∈ data -> d = [].
Proof.
  rewrite transformSeriesData_flat_map, Pie_keysSets_dimensions.
  assert (Hdims : Bar.dimensions data = [] <-> forall d, d ∈ data -> d = []).
  { split.
    - intros Hnil d Hd. destruct d as [|[k v] d']; [done|].
      assert (Hk : k ∈ Bar.dimensions data).
      { apply elem_of_dimensions. exists ((k, v) :: d'). split; [done|].
        apply list_elem_of_here. }
      rewrite Hnil in Hk. by apply elem_of_nil in Hk.
    - intros Hall. destruct (Bar.dimensions data) as [|k ks] eqn:Hks; [done|].
      assert (Hk : k ∈ Bar.dimensions data) by (rewrite Hks; apply list_elem_of_here).
      apply elem_of_dimensions in Hk as (d & Hd & Hk).
      rewrite (Hall d Hd) in Hk. by apply elem_of_nil in Hk. }
  rewrite <- Hdims. split.
  - intros Hnil. destruct (Bar.dimensions data) as [|k ks] eqn:Hks; [done|].
    destruct data as [|d data]; [done|]. simpl in Hnil. discriminate Hnil.
  - intros ->. clear Hdims. induction data as [|d data IH]; simpl; done.
Qed.

(** X2: nothing is aggregated: every observed key is the name of as many
    entries of the pie series data as there are rows, and no other string
    is the name of an entry. *)
Theorem pie_name_once_per_row (data : list (Row num)) (k : string) :
  length (List.filter (has_name k) (Pie.transformSeriesData data))
  = if decide (k ∈ observed_keys data) then length data else 0.
Proof.
  rewrite transformSeriesData_flat_map, Pie_keysSets_dimensions.
  rewrite (length_filter_flat_map _ _
             (if decide (k ∈ Bar.dimensions data) then 1 else 0)).
  - rewrite <- dimensions_observed_keys.
    destruct (decide (k ∈ Bar.dimensions data)) as [Hin|Hout].
    + rewrite decide_True by by apply elem_of_list_to_set. lia.
    + rewrite decide_False by by rewrite elem_of_list_to_set. lia.
  - intros d. rewrite <- (length_filter_eqb k) by apply NoDup_dimensions.
    induction (Bar.dimensions data) as [|k' ks IH]; simpl; [done|].
    unfold has_name at 1. simpl. rewrite String.eqb_sym.
    destruct (String.eqb k k'); simpl; by rewrite IH.
Qed.


End MorePie.


Section MoreBarDimensions.
Context {num : Type} {NumOps : JsNumber num} {host : Externals num}.

(** X4: rows that are appended to the query result keep the dimensions and
    the series that there were, in their order, and add new ones after
    them, in both bar transforms. *)
Theorem bar_series_appended_rows (data more : list (Row num)) (cols : string)
    (invertBars showLegend seriesLabelsShow : bool)
    (seriesLabelsPosition : string) (seriesCategoriesShow : bool)
    (numberFormat seriesLabelsFormat colorScheme : string)
    (showTooltip stackSeries : bool)
    (marginTop marginBottom marginRight marginLeft legendOrientation : string) :
  let plain (rows : list (Row num)) :=
    Bar.buildEchartOptions rows cols invertBars showLegend
      seriesLabelsShow seriesLabelsPosition seriesCategoriesShow
      numberFormat seriesLabelsFormat colorScheme showTooltip in
  let stacked (rows : list (Row num)) :=
    BarStacked.buildEchartOptions rows cols invertBars showLegend
      seriesLabelsShow seriesLabelsPosition seriesCategoriesShow
      numberFormat seriesLabelsFormat colorScheme showTooltip stackSeries
      marginTop marginBottom marginRight marginLeft legendOrientation in
  Bar.dimensions data `prefix_of` Bar.dimensions (data ++ more)
  /\ series (plain data) `prefix_of` series (plain (data ++ more))
  /\ series (stacked data) `prefix_of` series (stacked (data ++ more)).
Proof.
  intros plain stacked. unfold plain, stacked.
  rewrite !Bar_series, !BarStacked_series.
  split_and!; [|apply prefix_map_filter..]; apply dimensions_app_prefix.
Qed.

(** X5: when the rows all have the same keys in the same order, the
    dimensions are these keys in that order. *)
Theorem dimensions_uniform_rows (data : list (Row num)) (ks : list string) :
  data <> [] -> NoDup ks -> (forall d, d ∈ data -> Object_keys d = ks) ->
  Bar.dimensions data = ks.
Proof.
  intros Hdata Hnd Hkeys. destruct data as [|d data]; [done|].
  unfold Bar.dimensions, Array_from, new_Set. simpl map.
  rewrite (Hkeys d) by apply list_elem_of_here.
  change (forEach (ks :: ?l) ?body []) with
    (forEach l body (forEach ks (fun s k => Set_add s k) [])).
  rewrite (forEach_add_fresh ks []) by done. simpl.
  assert (Hrest : forall d', d' ∈ data -> Object_keys d' = ks)
    by (intros d' Hd'; by apply Hkeys, list_elem_of_further).
  clear Hkeys Hdata. induction data as [|d' data IH]; [done|].
  simpl map. rewrite (Hrest d') by apply list_elem_of_here.
  change (forEach (ks :: ?l) ?body ks) with
    (forEach l body (forEach ks (fun s k => Set_add s k) ks)).
  rewrite forEach_add_same by done.
  apply IH. intros d'' Hd''. by apply Hrest, list_elem_of_further.
Qed.

End MoreBarDimensions.

(** X5, witness: the two region and sales rows. *)
Lemma dimensions_uniform_rows_witness :
  Bar.dimensions region_sales_rows = ["region"; "sales"].
Proof.
  apply dimensions_uniform_rows.
  - discriminate.
  - apply NoDup_cons_2; [|apply NoDup_singleton].
    intros Hin. apply list_elem_of_singleton in Hin. discriminate Hin.
  - intros d Hd. unfold region_sales_rows in Hd.
    apply elem_of_cons in Hd as [->|Hd]; [reflexivity|].
    apply elem_of_cons in Hd as [->|Hd]; [reflexivity|].
    by apply elem_of_nil in Hd.
Defined.

(** Strings with a common suffix. *)
Lemma length_append (a b : string) :
  String.length (a +:+ b) = String.length a + String.length b.
Proof.
  induction a as [|x a IH]; [done|].
  change (S (String.length (a +:+ b)) = S (String.length a + String.length b)).
  by rewrite IH.
Qed.

Lemma append_inv_tail (a b s : string) : a +:+ s = b +:+ s -> a = b.
Proof.
  revert b. induction a as [|x a IH]; intros [|y b] Heq.
  - done.
  - apply (f_equal String.length) in Heq. rewrite !length_append in Heq.
    simpl in Heq. lia.
  - apply (f_equal String.length) in Heq. rewrite !length_append in Heq.
    simpl in Heq. lia.
  - change (String x (a +:+ s) = String y (b +:+ s)) in Heq.
    injection Heq as -> Heq. by rewrite (IH b Heq).
Qed.

Section MorePieOptions.
Context {num : Type} {NumOps : JsNumber num} {host : Externals num}.

(** X6: the inner radius matters for a donut only.  With [donut] off, any
    two inner radiuses give the same chart options: the control that the
    panel hides in that case is not read.  With [donut] on, two inner
    radiuses give the same chart options exactly when they print the
    same. *)
Theorem pie_inner_radius_effect (data : list (Row num))
    (chartTitle chartSubTitle : string) (showLegend showTitle : bool)
    (outerRadius innerRadius innerRadius' : num) (donut : bool)
    (numberFormat colorScheme : string)
    (showLabels labelsOutside labelLine : bool) (labelPosition : string)
    (showTooltip highlight : bool)
    (labelType legendVertical legendHorizontal legendOrientation : string)
    (marginTop marginBottom marginRight marginLeft : string) :
  let chartOptions (innerRadius : num) :=
    Pie.buildPieChart data chartTitle chartSubTitle showLegend showTitle
      outerRadius innerRadius donut numberFormat colorScheme showLabels
      labelsOutside labelLine labelPosition showTooltip highlight labelType
      legendVertical legendHorizontal legendOrientation
      marginTop marginBottom marginRight marginLeft in
  chartOptions innerRadius = chartOptions innerRadius'
  <-> donut = false
      \/ number_to_string innerRadius = number_to_string innerRadius'.
Proof.
  intros chartOptions. unfold chartOptions. split.
  - intros Heq. destruct donut; [right | by left].
    apply (f_equal (fun o => prop (default VUndefined (head (series o))) "radius"))
      in Heq.
    injection Heq as Heq. by apply append_inv_tail in Heq.
  - intros [->|Hprint]; [reflexivity|].
    unfold Pie.buildPieChart. cbv zeta. by rewrite Hprint.
Qed.

(** X7: the label lines of the pie are shown exactly when [labelsOutside]
    and [labelLine] are both set, whether the labels themselves are shown
    or not; the labels are shown when [showLabels] is set, at
    [labelPosition] whatever [labelsOutside] is. *)
Theorem pie_label_lines (data : list (Row num))
    (chartTitle chartSubTitle : string) (showLegend showTitle : bool)
    (outerRadius innerRadius : num) (donut : bool)
    (numberFormat colorScheme : string)
    (showLabels labelsOutside labelLine : bool) (labelPosition : string)
    (showTooltip highlight : bool)
    (labelType legendVertical legendHorizontal legendOrientation : string)
    (marginTop marginBottom marginRight marginLeft : string) :
  exists pie : JsValue num,
    prop (Pie.buildPieChart data chartTitle chartSubTitle showLegend showTitle
            outerRadius innerRadius donut numberFormat colorScheme showLabels
            labelsOutside labelLine labelPosition showTooltip highlight labelType
            legendVertical legendHorizontal legendOrientation
            marginTop marginBottom marginRight marginLeft) "series"
    = VArr [pie]
    /\ prop pie "labelLine" = VObj [("show", VBool (labelsOutside && labelLine))]
    /\ prop (prop pie "label") "show" = VBool showLabels
    /\ prop (prop pie "label") "position" = VStr labelPosition.
Proof.
  eexists. split; [reflexivity|].
  destruct labelsOutside, labelLine; split_and!; reflexivity.
Qed.

(** X8: the pie label is the name itself, as it is, or a string; for the
    three label types that start with the name it is a string that starts
    with the text of the name and ": ", so that a slice without a name is
    labelled "undefined: ...". *)
Theorem formatPieLabel_shape (params : PieLabelParams num)
    (numberFormat labelType : string) :
  let label := Pie.formatPieLabel params numberFormat labelType in
  (label = pie_name params \/ exists text : string, label = SStr text)
  /\ (labelType ∈ ["key_value"; "key_percent"; "key_value_percent"] ->
      exists rest : string,
        label = SStr (to_string (pie_name params) +:+ ": " +:+ rest)).
Proof.
  intros label. unfold label, Pie.formatPieLabel. split.
  - repeat (destruct (String.eqb labelType _); [eauto|]). by left.
  - intros Hin.
    repeat (apply elem_of_cons in Hin as [->|Hin]; [simpl; eauto|]).
    by apply elem_of_nil in Hin.
Qed.

End MorePieOptions.

(** X8, witness: a slice without a name, labelled by name and value. *)
Lemma formatPieLabel_shape_witness :
  exists rest : string,
    Pie.formatPieLabel (host := example_host)
      {| pie_name := SUndefined; pie_value := SNum 10%Z;
         pie_percent := SNum 20%Z |}
      "SMART_NUMBER" "key_value"
    = SStr ("undefined: " +:+ rest).
Proof.
  apply (formatPieLabel_shape (host := example_host)
           {| pie_name := SUndefined; pie_value := SNum 10%Z;
              pie_percent := SNum 20%Z |}
           "SMART_NUMBER" "key_value").
  apply list_elem_of_here.
Defined.

Section MoreBarLabels.
Context {num : Type} {NumOps : JsNumber num} {host : Externals num}.


End MoreBarLabels.


Lemma filter_other_nil (c : string) (l : list string) :
  List.filter (fun d => negb (String.eqb d c)) l = [] <-> forall k, k ∈ l -> k = c.
Proof.
  split.
  - intros Hnil k Hk. destruct (String.eqb_spec k c) as [->|Hne]; [done|].
    assert (Hin : k ∈ List.filter (fun d => negb (String.eqb d c)) l)
      by by apply elem_of_filter_other.
    rewrite Hnil in Hin. by apply elem_of_nil in Hin.
  - intros Hall. destruct (List.filter _ l) as [|k ks] eqn:Hks; [done|].
    assert (Hin : k ∈ List.filter (fun d => negb (String.eqb d c)) l)
      by (rewrite Hks; apply list_elem_of_here).
    apply elem_of_filter_other in Hin as [Hin Hne]. by destruct (Hne (Hall k Hin)).
Qed.

Section MoreBar.
Context {num : Type} {NumOps : JsNumber num} {host : Externals num}.

(** The dimensions of the dataset of the two bar transforms. *)
Lemma Bar_dataset_dimensions (data : list (Row num)) (cols : string)
    (invertBars showLegend seriesLabelsShow : bool)
    (seriesLabelsPosition : string) (seriesCategoriesShow : bool)
    (numberFormat seriesLabelsFormat colorScheme : string)
    (showTooltip : bool) :
  prop (prop (Bar.buildEchartOptions data cols invertBars showLegend
                seriesLabelsShow seriesLabelsPosition seriesCategoriesShow
                numberFormat seriesLabelsFormat colorScheme showTooltip)
          "dataset") "dimensions"
  = VArr (map VStr (Bar.dimensions data)).
Proof. reflexivity. Qed.

Lemma BarStacked_dataset_dimensions (data : list (Row num)) (cols : string)
    (invertBars showLegend seriesLabelsShow : bool)
    (seriesLabelsPosition : string) (seriesCategoriesShow : bool)
    (numberFormat seriesLabelsFormat colorScheme : string)
    (showTooltip stackSeries : bool)
    (marginTop marginBottom marginRight marginLeft legendOrientation : string) :
  prop (prop (BarStacked.buildEchartOptions data cols invertBars showLegend
                seriesLabelsShow seriesLabelsPosition seriesCategoriesShow
                numberFormat seriesLabelsFormat colorScheme showTooltip
                stackSeries marginTop marginBottom marginRight marginLeft
                legendOrientation)
          "dataset") "dimensions"
  = VArr (map VStr (Bar.dimensions data)).
Proof. reflexivity. Qed.

(** X10: a bar chart has no series exactly when no row has a key other than
    [cols]; in particular for no rows.  This holds for both bar
    transforms. *)
Theorem bar_no_series (data : list (Row num)) (cols : string)
    (invertBars showLegend seriesLabelsShow : bool)
    (seriesLabelsPosition : string) (seriesCategoriesShow : bool)
    (numberFormat seriesLabelsFormat colorScheme : string)
    (showTooltip stackSeries : bool)
    (marginTop marginBottom marginRight marginLeft legendOrientation : string) :
  let plain :=
    Bar.buildEchartOptions data cols invertBars showLegend
      seriesLabelsShow seriesLabelsPosition seriesCategoriesShow
      numberFormat seriesLabelsFormat colorScheme showTooltip in
  let stacked :=
    BarStacked.buildEchartOptions data cols invertBars showLegend
      seriesLabelsShow seriesLabelsPosition seriesCategoriesShow
      numberFormat seriesLabelsFormat colorScheme showTooltip stackSeries
      marginTop marginBottom marginRight marginLeft legendOrientation in
  (series plain = [] <-> forall k, k ∈ observed_keys data -> k = cols)
  /\ (series stacked = [] <-> forall k, k ∈ observed_keys data -> k = cols).
Proof.
  intros plain stacked. unfold plain, stacked.
  rewrite Bar_series, BarStacked_series.
  assert (Hkeys : (forall k, k ∈ observed_keys data -> k = cols)
                  <-> forall k, k ∈ Bar.dimensions data -> k = cols).
  { rewrite <- dimensions_observed_keys.
    split; intros Hall k Hk; apply Hall;
      [by apply elem_of_list_to_set | by apply elem_of_list_to_set in Hk]. }
  rewrite Hkeys, <- filter_other_nil.
  split; (split; [intros Hnil; by apply map_eq_nil in Hnil | by intros ->]).
Qed.

(** X11: the series of a bar chart come in the order of the dimensions of
    its dataset: their names are [dataset.dimensions] without [cols], and
    [dataset.dimensions] lists each observed key once.  This holds for both
    bar transforms. *)
Theorem bar_series_follow_dimensions (data : list (Row num)) (cols : string)
    (invertBars showLegend seriesLabelsShow : bool)
    (seriesLabelsPosition : string) (seriesCategoriesShow : bool)
    (numberFormat seriesLabelsFormat colorScheme : string)
    (showTooltip stackSeries : bool)
    (marginTop marginBottom marginRight marginLeft legendOrientation : string) :
  let plain :=
    Bar.buildEchartOptions data cols invertBars showLegend
      seriesLabelsShow seriesLabelsPosition seriesCategoriesShow
      numberFormat seriesLabelsFormat colorScheme showTooltip in
  let stacked :=
    BarStacked.buildEchartOptions data cols invertBars showLegend
      seriesLabelsShow seriesLabelsPosition seriesCategoriesShow
      numberFormat seriesLabelsFormat colorScheme showTooltip stackSeries
      marginTop marginBottom marginRight marginLeft legendOrientation in
  exists dims : list string,
    NoDup dims
    /\ (forall k, k ∈ dims <-> k ∈ observed_keys data)
    /\ let names := map VStr (List.filter (fun d => negb (String.eqb d cols)) dims) in
       prop (prop plain "dataset") "dimensions" = VArr (map VStr dims)
       /\ map (fun s => prop s "name") (series plain) = names
       /\ prop (prop stacked "dataset") "dimensions" = VArr (map VStr dims)
       /\ map (fun s => prop s "name") (series stacked) = names.
Proof.
  intros plain stacked. exists (Bar.dimensions data).
  split; [apply NoDup_dimensions|].
  split; [intros k; by rewrite <- dimensions_observed_keys, elem_of_list_to_set|].
  unfold plain, stacked. rewrite Bar_series, BarStacked_series.
  split_and!; try reflexivity; by apply series_names.
Qed.

(** X12: when [cols] is a key of some row, every field that a series
    encodes, on either axis, is a dimension of the dataset.  This holds for
    both bar transforms. *)
Theorem bar_encode_in_dimensions (data : list (Row num)) (cols : string)
    (invertBars showLegend seriesLabelsShow : bool)
    (seriesLabelsPosition : string) (seriesCategoriesShow : bool)
    (numberFormat seriesLabelsFormat colorScheme : string)
    (showTooltip stackSeries : bool)
    (marginTop marginBottom marginRight marginLeft legendOrientation : string) :
  cols ∈ observed_keys data ->
  let plain :=
    Bar.buildEchartOptions data cols invertBars showLegend
      seriesLabelsShow seriesLabelsPosition seriesCategoriesShow
      numberFormat seriesLabelsFormat colorScheme showTooltip in
  let stacked :=
    BarStacked.buildEchartOptions data cols invertBars showLegend
      seriesLabelsShow seriesLabelsPosition seriesCategoriesShow
      numberFormat seriesLabelsFormat colorScheme showTooltip stackSeries
      marginTop marginBottom marginRight marginLeft legendOrientation in
  let encodes_dimensions (chartOptions : JsValue num) :=
    Forall
      (fun s =>
         let dimensions :=
           array_elems (prop (prop chartOptions "dataset") "dimensions") in
         prop (prop s "encode") "x" ∈ dimensions
         /\ prop (prop s "encode") "y" ∈ dimensions)
      (series chartOptions) in
  encodes_dimensions plain /\ encodes_dimensions stacked.
Proof.
  intros Hcols plain stacked encodes_dimensions.
  rewrite <- dimensions_observed_keys, elem_of_list_to_set in Hcols.
  unfold encodes_dimensions, plain, stacked.
  rewrite Bar_dataset_dimensions, BarStacked_dataset_dimensions.
  rewrite Bar_series, BarStacked_series.
  split; apply Forall_fmap, Forall_forall;
    intros dim [Hdim _]%elem_of_filter_other;
    destruct invertBars, stackSeries; simpl;
    split; apply (list_elem_of_fmap_2 VStr); done.
Qed.

(** X13: every series of a bar chart is named by a string, has type 'bar',
    the colour that the colour scale gives for its name, and the label
    options [{show: seriesLabelsShow, position: seriesLabelsPosition,
    formatter: labelFormatter}]: the placeholders of the series template,
    the name [{}] and the colour 'auto', are in no series. *)
Theorem bar_series_uniform (data : list (Row num)) (cols : string)
    (invertBars showLegend seriesLabelsShow : bool)
    (seriesLabelsPosition : string) (seriesCategoriesShow : bool)
    (numberFormat seriesLabelsFormat colorScheme : string)
    (showTooltip stackSeries : bool)
    (marginTop marginBottom marginRight marginLeft legendOrientation : string) :
  let plain :=
    Bar.buildEchartOptions data cols invertBars showLegend
      seriesLabelsShow seriesLabelsPosition seriesCategoriesShow
      numberFormat seriesLabelsFormat colorScheme showTooltip in
  let stacked :=
    BarStacked.buildEchartOptions data cols invertBars showLegend
      seriesLabelsShow seriesLabelsPosition seriesCategoriesShow
      numberFormat seriesLabelsFormat colorScheme showTooltip stackSeries
      marginTop marginBottom marginRight marginLeft legendOrientation in
  let uniform (chartOptions : JsValue num) :=
    Forall
      (fun s =>
         exists dim : string,
           prop s "name" = VStr dim
           /\ prop s "type" = VStr "bar"
           /\ prop s "itemStyle"
              = VObj [("color", VStr (scale_color (getScale colorScheme) dim))]
           /\ prop s "label"
              = VObj [ ("show", VBool seriesLabelsShow);
                       ("position", VStr seriesLabelsPosition);
                       ("formatter",
                        VFun (BarLabelCallback
                                (Bar.labelFormatter numberFormat
                                   seriesLabelsFormat))) ])
      (series chartOptions) in
  uniform plain /\ uniform stacked.
Proof.
  intros plain stacked uniform. unfold uniform, plain, stacked.
  rewrite Bar_series, BarStacked_series.
  split; apply Forall_fmap, Forall_forall; intros dim _; exists dim;
    split_and!; reflexivity.
Qed.

End MoreBar.

(** X12, witness: the two region and sales rows, with [cols = "region"]. *)
Lemma bar_encode_in_dimensions_witness :
  Forall
    (fun s =>
       prop (prop s "encode") "x" ∈ [VStr "region"; VStr "sales"]
       /\ prop (prop s "encode") "y" ∈ [VStr "region"; VStr "sales"])
    (series
       (Bar.buildEchartOptions (host := example_host) region_sales_rows "region"
          false true true "top" true "SMART_NUMBER" "default" "supersetColors"
          true)).
Proof.
  apply (bar_encode_in_dimensions (host := example_host) region_sales_rows
           "region" false true true "top" true "SMART_NUMBER" "default"
           "supersetColors" true false "5%" "5%" "5%" "5%" "top").
  apply elem_of_observed_keys. exists [("region", SStr "A"); ("sales", SNum 10%Z)].
  split; apply list_elem_of_here.
Defined.

Section MoreStacked.
Context {num : Type} {NumOps : JsNumber num} {host : Externals num}.

(** The legend options of the bar transform with stacking. *)
Lemma BarStacked_legend (data : list (Row num)) (cols : string)
    (invertBars showLegend seriesLabelsShow : bool)
    (seriesLabelsPosition : string) (seriesCategoriesShow : bool)
    (numberFormat seriesLabelsFormat colorScheme : string)
    (showTooltip stackSeries : bool)
    (marginTop marginBottom marginRight marginLeft legendOrientation : string) :
  prop (BarStacked.buildEchartOptions data cols invertBars showLegend
          seriesLabelsShow seriesLabelsPosition seriesCategoriesShow
          numberFormat seriesLabelsFormat colorScheme showTooltip stackSeries
          marginTop marginBottom marginRight marginLeft legendOrientation)
    "legend"
  = VObj (("show", VBool showLegend)
          :: own_props (BarStacked.legendOrientationBuilder legendOrientation)).
Proof.
  unfold BarStacked.buildEchartOptions. cbv zeta.
  unfold BarStacked.legendOrientationBuilder. simpl existsb.
  destruct (String.eqb legendOrientation "top"),
    (String.eqb legendOrientation "bottom"),
    (String.eqb legendOrientation "left"); reflexivity.
Qed.

(** X14: the legend options of the bar transform with stacking are
    [show: showLegend] followed by the properties that
    [legendOrientationBuilder] returns; these never include [show], so the
    spread does not override it, whatever [legendOrientation] is.  The
    orientation is 'horizontal' for 'top' and 'bottom' and 'vertical' for
    everything else. *)
Theorem stacked_legend (data : list (Row num)) (cols : string)
    (invertBars showLegend seriesLabelsShow : bool)
    (seriesLabelsPosition : string) (seriesCategoriesShow : bool)
    (numberFormat seriesLabelsFormat colorScheme : string)
    (showTooltip stackSeries : bool)
    (marginTop marginBottom marginRight marginLeft legendOrientation : string) :
  let legend :=
    prop (BarStacked.buildEchartOptions data cols invertBars showLegend
            seriesLabelsShow seriesLabelsPosition seriesCategoriesShow
            numberFormat seriesLabelsFormat colorScheme showTooltip stackSeries
            marginTop marginBottom marginRight marginLeft legendOrientation)
      "legend" in
  legend
  = VObj (("show", VBool showLegend)
          :: own_props (BarStacked.legendOrientationBuilder legendOrientation))
  /\ prop legend "show" = VBool showLegend
  /\ prop legend "orient"
     = (if decide (legendOrientation ∈ ["top"; "bottom"])
        then VStr "horizontal" else VStr "vertical").
Proof.
  intros legend. unfold legend, BarStacked.buildEchartOptions. cbv zeta.
  unfold BarStacked.legendOrientationBuilder. simpl existsb.
  destruct (String.eqb_spec legendOrientation "top") as [->|Htop];
    [split_and!; reflexivity|].
  destruct (String.eqb_spec legendOrientation "bottom") as [->|Hbottom];
    [split_and!; reflexivity|].
  rewrite decide_False
    by (intros [?|[?|?%elem_of_nil]%elem_of_cons]%elem_of_cons; done).
  destruct (String.eqb legendOrientation "left"); split_and!; reflexivity.
Qed.

(** X15: beside the dataset, the axes and the series, the bar transform
    with stacking has the legend and tooltip options of the plain one with
    properties added after them, and [grid], which the plain one does not
    have: [legend] gains the properties of [legendOrientationBuilder],
    [tooltip] gains [valueFormatter], which formats with [numberFormat], and
    [grid] holds the four margins. *)
Theorem stacked_adds_options (data : list (Row num)) (cols : string)
    (invertBars showLegend seriesLabelsShow : bool)
    (seriesLabelsPosition : string) (seriesCategoriesShow : bool)
    (numberFormat seriesLabelsFormat colorScheme : string)
    (showTooltip stackSeries : bool)
    (marginTop marginBottom marginRight marginLeft legendOrientation : string) :
  let plain :=
    Bar.buildEchartOptions data cols invertBars showLegend
      seriesLabelsShow seriesLabelsPosition seriesCategoriesShow
      numberFormat seriesLabelsFormat colorScheme showTooltip in
  let stacked :=
    BarStacked.buildEchartOptions data cols invertBars showLegend
      seriesLabelsShow seriesLabelsPosition seriesCategoriesShow
      numberFormat seriesLabelsFormat colorScheme showTooltip stackSeries
      marginTop marginBottom marginRight marginLeft legendOrientation in
  map fst (own_props stacked) = map fst (own_props plain) ++ ["grid"]
  /\ prop stacked "legend"
     = VObj (own_props (prop plain "legend")
             ++ own_props (BarStacked.legendOrientationBuilder legendOrientation))
  /\ prop stacked "tooltip"
     = VObj (own_props (prop plain "tooltip")
             ++ [("valueFormatter",
                  VFun (ValueCallback (formatNumber numberFormat)))])
  /\ prop stacked "grid"
     = VObj [ ("top", VStr marginTop); ("bottom", VStr marginBottom);
              ("right", VStr marginRight); ("left", VStr marginLeft) ]
  /\ prop plain "grid" = VUndefined.
Proof.
  intros plain stacked. unfold stacked. rewrite BarStacked_legend.
  split_and!; reflexivity.
Qed.

End MoreStacked.

(** ** The render adapter *)

Section EchartProperties.
Context {num : Type} {Div Chart : Type} (init : Div -> Chart).

Implicit Types (s : Echart.Refs (num := num) (Div := Div) (Chart := Chart))
  (e : Echart.Event (num := num) (Div := Div)).

Lemma step_consistent s e :
  Echart.consistent init s -> Echart.consistent init (Echart.step init s e).
Proof.
  unfold Echart.consistent. destruct s as [div [chart|] calls]; simpl; intros Hs.
  - destruct Hs as (div0 & rest & -> & -> & Hrest).
    destruct e as [div'|chartOptions|width height]; simpl.
    + by exists div0, rest.
    + unfold Echart.chartOptionsEffect. simpl. destruct div as [d|]; simpl.
      * exists div0, (rest ++ [Echart.CallSetOption (init div0) chartOptions true]).
        split_and!; [done | done |]. apply Forall_app. split; [done|].
        by apply Forall_singleton.
      * by exists div0, rest.
    + exists div0, (rest ++ [Echart.CallResize (init div0) width height]).
      split_and!; [done | done |]. apply Forall_app. split; [done|].
      by apply Forall_singleton.
  - subst calls. destruct e as [div'|chartOptions|width height]; simpl; [done| |done].
    unfold Echart.chartOptionsEffect. simpl. destruct div as [d|]; simpl; [|done].
    exists d, [Echart.CallSetOption (init d) chartOptions true].
    split_and!; [done | done |]. by apply Forall_singleton.
Qed.

Lemma run_consistent (events : list (Echart.Event (num := num) (Div := Div))) s :
  Echart.consistent init s -> Echart.consistent init (Echart.run init events s).
Proof.
  unfold Echart.run. revert s. induction events as [|e events IH]; intros s Hs;
    [done|].
  simpl. by apply IH, step_consistent.
Qed.

Lemma step_keeps_instance s e (chart : Chart) :
  Echart.chartRef s = Some chart ->
  Echart.chartRef (Echart.step init s e) = Some chart.
Proof.
  destruct s as [div ref calls]. simpl. intros ->.
  destruct e as [div'|chartOptions|width height]; simpl; [done| |done].
  unfold Echart.chartOptionsEffect. simpl. by destruct div.
Qed.

(** X16: whatever happens to a component, in whatever order, it makes at
    most one instance of the charting library.  Before there is an instance
    no call has been made; once there is one, [init] was the first call
    and the only one of its kind, the instance is the one that [init] made
    for the element of that call, every later call is made on it, and
    [getEchartInstance] returns it from then on, also when another element
    is attached. *)
Theorem echart_single_instance (events later : list (Echart.Event (num := num) (Div := Div))) :
  let s := Echart.run init events Echart.initial in
  match Echart.getEchartInstance s with
  | None => Echart.calls s = []
  | Some chart =>
      (exists (div : Div) (rest : list Echart.Call),
         Echart.calls s = Echart.CallInit div :: rest
         /\ chart = init div
         /\ Forall (fun c => Echart.call_target c = Some chart) rest)
      /\ Echart.getEchartInstance (Echart.run init later s) = Some chart
  end.
Proof.
  intros s.
  assert (Hs : Echart.consistent init s) by (by apply run_consistent).
  unfold Echart.consistent, Echart.getEchartInstance in *.
  destruct (Echart.chartRef s) as [chart|] eqn:Href; [|done].
  split; [done|]. clear Hs. unfold Echart.run at 1. generalize dependent s.
  induction later as [|e later IH]; intros s Href; [done|].
  simpl. by apply IH, step_keeps_instance.
Qed.

(** X17: what one run of an effect does.  The effect on the chart options
    does nothing while no element is attached; with an element attached it
    makes the instance if there is none and then calls [setOption] with the
    chart options and [notMerge = true], and nothing else.  The effect on
    the size does nothing while there is no instance, and otherwise calls
    [resize] on it once; it never makes an instance. *)
Theorem echart_effects s (chartOptions : JsValue num)
    (width height : num) :
  let after_options := Echart.chartOptionsEffect init chartOptions s in
  let after_size := Echart.sizeEffect width height s in
  match Echart.divRef s, Echart.chartRef s with
  | None, _ => after_options = s
  | Some div, None =>
      Echart.chartRef after_options = Some (init div)
      /\ Echart.calls after_options
         = Echart.calls s
           ++ [ Echart.CallInit div;
                Echart.CallSetOption (init div) chartOptions true ]
  | Some _, Some chart =>
      Echart.chartRef after_options = Some chart
      /\ Echart.calls after_options
         = Echart.calls s ++ [Echart.CallSetOption chart chartOptions true]
  end
  /\ Echart.divRef after_options = Echart.divRef s
  /\ Echart.chartRef after_size = Echart.chartRef s
  /\ Echart.divRef after_size = Echart.divRef s
  /\ Echart.calls after_size
     = Echart.calls s
       ++ match Echart.chartRef s with
          | None => []
          | Some chart => [Echart.CallResize chart width height]
          end.
Proof.
  destruct s as [[div|] [chart|] calls]; simpl;
    unfold Echart.chartOptionsEffect, Echart.sizeEffect; simpl;
    rewrite <- ?app_assoc, ?app_nil_r; split_and!; reflexivity.
Qed.

End EchartProperties.

(** ** The control panels *)

Lemma Boolean_optional_value (controls : JsValue Z) (name : string) :
  Boolean (optional_prop (optional_prop controls name) "value") = true
  <-> exists (fields cfields : list (string * JsValue Z)) (value : JsValue Z),
        controls = VObj fields
        /\ obj_get name fields = Some (VObj cfields)
        /\ obj_get "value" cfields = Some value
        /\ Boolean value = true.
Proof.
  split.
  - destruct controls as [[| | | |]| |fields| |]; simpl; try discriminate.
    destruct (obj_get name fields) as [control|] eqn:Hcontrol; simpl;
      [|discriminate].
    destruct control as [[| | | |]| |cfields| |]; simpl; try discriminate.
    destruct (obj_get "value" cfields) as [value|] eqn:Hvalue; simpl;
      [|discriminate].
    intros Htrue. by exists fields, cfields, value.
  - intros (fields & cfields & value & -> & Hcontrol & Hvalue & Htrue).
    simpl. rewrite Hcontrol. simpl. by rewrite Hvalue.
Qed.

(** X18: the three visibility functions of the pie panel.  The title and
    subtitle controls are shown exactly when [controls] has a control
    [showTitle] with a truthy [value], the two label placement controls
    exactly when it has such a control [show_labels], and the inner radius
    exactly when it has such a control [donut]; so each is hidden when
    [controls], the control or its value is missing. *)
Theorem pie_visibility (controls : JsValue Z) :
  let checked (name : string) :=
    exists (fields cfields : list (string * JsValue Z)) (value : JsValue Z),
      controls = VObj fields
      /\ obj_get name fields = Some (VObj cfields)
      /\ obj_get "value" cfields = Some value
      /\ Boolean value = true in
  (PieControls.title_visibility controls = true <-> checked "showTitle")
  /\ (PieControls.labels_visibility controls = true <-> checked "show_labels")
  /\ (PieControls.donut_visibility controls = true <-> checked "donut").
Proof. intros checked. split_and!; apply Boolean_optional_value. Qed.

Section PanelProperties.
Context (D3_FORMAT_OPTIONS : list (string * string)) (D3_FORMAT_DOCS : string).

(** X19: in the customization section of both control panels the names of
    the controls are pairwise distinct, and the default of every control
    that the plugin writes out fits the control: a boolean for a checkbox, a
    string for a text control, one of the offered choices for a select
    control, a value of the range on the step grid for a slider.  The number
    format control takes its choices from the host and is left out. *)
Theorem control_defaults_valid :
  let pie := PieControls.controlSetRows D3_FORMAT_OPTIONS D3_FORMAT_DOCS in
  let bar := BarControls.controlSetRows D3_FORMAT_OPTIONS D3_FORMAT_DOCS in
  let valid (rows : list (list ControlItem)) :=
    NoDup (map item_name (concat rows))
    /\ Forall
         (fun nc => nc.1 = "number_format" \/ valid_default nc.2 = true)
         (custom_controls rows) in
  valid pie /\ valid bar.
Proof.
  intros pie bar valid. split; split.
  - apply (bool_decide_unpack _). by vm_compute.
  - unfold pie, PieControls.controlSetRows, custom_controls. simpl.
    repeat (apply Forall_cons; split; [first [by right | by left]|]).
    apply Forall_nil_2.
  - apply (bool_decide_unpack _). by vm_compute.
  - unfold bar, BarControls.controlSetRows, custom_controls. simpl.
    repeat (apply Forall_cons; split; [first [by right | by left]|]).
    apply Forall_nil_2.
Qed.

(** X20: the four legend orientations that the bar panel offers give four
    different legend layouts. *)
Theorem legend_choices_distinct {num : Type} {NumOps : JsNumber num}
    (o1 o2 : string) :
  let offered :=
    choices_of (BarControls.controlSetRows D3_FORMAT_OPTIONS D3_FORMAT_DOCS)
      "legendOrientation" in
  o1 ∈ offered -> o2 ∈ offered -> o1 <> o2 ->
  BarStacked.legendOrientationBuilder (num := num) o1
  <> BarStacked.legendOrientationBuilder o2.
Proof.
  intros offered H1 H2 Hne.
  repeat (apply elem_of_cons in H1 as [->|H1]);
    [| | | |by apply elem_of_nil in H1];
    (repeat (apply elem_of_cons in H2 as [->|H2]);
     [| | | |by apply elem_of_nil in H2]);
    first [done | intros Heq; discriminate Heq].
Qed.

(** X21: a label type, label format or legend orientation that the panels
    do not offer is treated as the default: the pie label is the name, the
    bar label is that of the format 'default', and the legend is laid out
    as for 'right'.  So every value with a case of its own is offered. *)
Theorem unoffered_choices_default {num : Type} {NumOps : JsNumber num}
    {host : Externals num} :
  let pie := PieControls.controlSetRows D3_FORMAT_OPTIONS D3_FORMAT_DOCS in
  let bar := BarControls.controlSetRows D3_FORMAT_OPTIONS D3_FORMAT_DOCS in
  (forall (params : PieLabelParams num) (numberFormat labelType : string),
     labelType ∉ choices_of pie "label_type" ->
     Pie.formatPieLabel params numberFormat labelType = pie_name params)
  /\ (forall (params : BarLabelParams num)
        (numberFormat seriesLabelsFormat : string),
        seriesLabelsFormat ∉ choices_of bar "seriesLabelsFormat" ->
        Bar.labelFormatter numberFormat seriesLabelsFormat params
        = Bar.labelFormatter numberFormat "default" params)
  /\ (forall legendOrientation : string,
        legendOrientation ∉ choices_of bar "legendOrientation" ->
        BarStacked.legendOrientationBuilder (num := num) legendOrientation
        = BarStacked.legendOrientationBuilder "right").
Proof.
  intros pie bar. split_and!.
  - intros params numberFormat labelType Hout.
    change (labelType ∉ ["key"; "value"; "percent"; "key_value"; "key_percent";
                         "key_value_percent"]) in Hout.
    unfold Pie.formatPieLabel.
    repeat (apply not_elem_of_cons in Hout as [Hne Hout];
            apply String.eqb_neq in Hne; rewrite Hne; clear Hne).
    reflexivity.
  - intros params numberFormat seriesLabelsFormat Hout.
    change (seriesLabelsFormat ∉ ["default"; "seriesNameCategoryValue";
                                  "categoryValue"; "seriesNameValue"]) in Hout.
    unfold Bar.labelFormatter.
    apply not_elem_of_cons in Hout as [_ Hout].
    repeat (apply not_elem_of_cons in Hout as [Hne Hout];
            apply String.eqb_neq in Hne; rewrite Hne; clear Hne).
    reflexivity.
  - intros legendOrientation Hout.
    change (legendOrientation ∉ ["top"; "bottom"; "left"; "right"]) in Hout.
    unfold BarStacked.legendOrientationBuilder. simpl existsb.
    repeat (apply not_elem_of_cons in Hout as [Hne Hout];
            apply String.eqb_neq in Hne; rewrite ?Hne; clear Hne).
    reflexivity.
Qed.

End PanelProperties.

(** X20, witness: 'top' and 'bottom'. *)
Lemma legend_choices_distinct_witness :
  choices_of (BarControls.controlSetRows [] EmptyString) "legendOrientation"
  = ["top"; "bottom"; "left"; "right"]
  /\ BarStacked.legendOrientationBuilder (num := Z) "top"
     <> BarStacked.legendOrientationBuilder "bottom".
Proof.
  split; [reflexivity|].
  apply (legend_choices_distinct [] EmptyString "top" "bottom").
  - apply list_elem_of_here.
  - apply list_elem_of_further, list_elem_of_here.
  - discriminate.
Defined.

(** X21, witness: the label type "donut", which the pie panel does not
    offer. *)
Lemma unoffered_choices_default_witness :
  Pie.formatPieLabel (host := example_host)
    {| pie_name := SStr "A"; pie_value := SNum 10%Z; pie_percent := SNum 20%Z |}
    "SMART_NUMBER" "donut"
  = SStr "A".
Proof.
  destruct (unoffered_choices_default [] EmptyString (host := example_host))
    as (Hpie & _ & _).
  apply (Hpie {| pie_name := SStr "A"; pie_value := SNum 10%Z;
                 pie_percent := SNum 20%Z |} "SMART_NUMBER" "donut").
  intros Hin.
  repeat (apply elem_of_cons in Hin as [Hin|Hin]; [discriminate Hin|]).
  by apply elem_of_nil in Hin.
Defined.

(** ** [transformProps] *)

Section TransformProps.
Context {num : Type} {NumOps : JsNumber num} {host : Externals num}.


(** X23: what [transformProps] of the two bar plugins returns for a
    non-empty [queriesData]: the width and the height as given, the rows of
    the first query as [data], and chart options whose [dataset.source] is
    these same rows, whose dataset dimensions are the keys of these rows
    and whose series are named by keys of these rows. *)
Theorem bar_transformProps_result :
  let result_of (rows : list (Row num)) (width height : num)
      (result : option (JsValue num)) :=
    exists r : JsValue num,
      result = Some r
      /\ prop r "width" = VNum width
      /\ prop r "height" = VNum height
      /\ prop r "data" = rows_value rows
      /\ prop (prop (prop r "chartOptions") "dataset") "source" = prop r "data"
      /\ prop (prop (prop r "chartOptions") "dataset") "dimensions"
         = VArr (map VStr (Bar.dimensions rows))
      /\ Forall
           (fun s => exists k, prop s "name" = VStr k /\ k ∈ observed_keys rows)
           (series (prop r "chartOptions")) in
  (forall (width height : num) (formData : BarProps.FormData)
     (first : QueryData num) (rest : list (QueryData num)),
     result_of (query_data first) width height
       (BarProps.transformProps
          {| props_width := width; props_height := height;
             props_formData := formData;
             props_queriesData := first :: rest |}))
  /\ (forall (width height : num) (formData : BarStackedProps.FormData)
        (first : QueryData num) (rest : list (QueryData num)),
        result_of (query_data first) width height
          (BarStackedProps.transformProps
             {| props_width := width; props_height := height;
                props_formData := formData;
                props_queriesData := first :: rest |})).
Proof.
  intros result_of.
  assert (Hobserved : forall (rows : list (Row num)) (cols : string) (dim : string),
            dim ∈ List.filter (fun d => negb (String.eqb d cols))
                    (Bar.dimensions rows) ->
            dim ∈ observed_keys rows).
  { intros rows cols dim [Hin _]%elem_of_filter_other.
    by rewrite <- dimensions_observed_keys, elem_of_list_to_set. }
  split; intros width height formData first rest; eexists;
    (split; [reflexivity|]); split_and!; try reflexivity.
  - change (prop (object ?ms) "chartOptions") with
      (Bar.buildEchartOptions (query_data first) (BarProps.cols formData)
         (BarProps.invertBars formData) (BarProps.showLegend formData)
         (BarProps.seriesLabelsShow formData)
         (BarProps.seriesLabelsPosition formData)
         (BarProps.seriesCategoriesShow formData)
         (BarProps.numberFormat formData)
         (BarProps.seriesLabelsFormat formData)
         (BarProps.colorScheme formData) (BarProps.showTooltip formData)).
    rewrite Bar_series. apply Forall_fmap, Forall_forall.
    intros dim Hdim%Hobserved. by exists dim.
  - change (prop (object ?ms) "chartOptions") with
      (BarStacked.buildEchartOptions (query_data first)
         (BarStackedProps.cols formData)
         (BarStackedProps.invertBars formData)
         (BarStackedProps.showLegend formData)
         (BarStackedProps.seriesLabelsShow formData)
         (BarStackedProps.seriesLabelsPosition formData)
         (BarStackedProps.seriesCategoriesShow formData)
         (BarStackedProps.numberFormat formData)
         (BarStackedProps.seriesLabelsFormat formData)
         (BarStackedProps.colorScheme formData)
         (BarStackedProps.showTooltip formData)
         (BarStackedProps.stackSeries formData)
         (BarStackedProps.marginTop formData)
         (BarStackedProps.marginBottom formData)
         (BarStackedProps.marginRight formData)
         (BarStackedProps.marginLeft formData)
         (BarStackedProps.legendOrientation formData)).
    rewrite BarStacked_series. apply Forall_fmap, Forall_forall.
    intros dim Hdim%Hobserved.
    exists dim. split; [by destruct (BarStackedProps.stackSeries formData)|done].
Qed.

End TransformProps.

Section PieTransformProps.
Context {num : Type} {NumOps : JsNumber num} {host : Externals num}.

(** X24: what [transformProps] of the pie plugin returns for a non-empty
    [queriesData]: the width and the height as given, the rows of the first
    query as [data], and chart options with one pie series, whose data has
    one entry for every row and every key of these rows. *)
Theorem pie_transformProps_result (width height : num)
    (formData : PieProps.FormData num) (first : QueryData num)
    (rest : list (QueryData num)) :
  let rows := query_data first in
  exists r pie : JsValue num,
    PieProps.transformProps
      {| props_width := width; props_height := height;
         props_formData := formData; props_queriesData := first :: rest |}
    = Some r
    /\ prop r "width" = VNum width
    /\ prop r "height" = VNum height
    /\ prop r "data" = rows_value rows
    /\ prop (prop r "chartOptions") "series" = VArr [pie]
    /\ prop pie "data" = VArr (Pie.transformSeriesData rows)
    /\ length (Pie.transformSeriesData rows)
       = length rows * size (observed_keys rows).
Proof.
  intros rows. eexists _, _. split; [reflexivity|].
  split_and!; try reflexivity.
  rewrite transformSeriesData_flat_map, Pie_keysSets_dimensions,
    <- length_dimensions.
  apply length_flat_map_const. intros d. by rewrite length_map.
Qed.

End PieTransformProps.

Section StoreAliasing.
Import Store.
Context {num : Type} {NumOps : JsNumber num} {host : Externals num}.
Implicit Types (h : Heap (num := num)) (rows : list (Row num)).


End StoreAliasing.


